(** * GrindLink: the record service (index.js) and its React client (src/App.tsx)

    A shallow embedding of the four data endpoints of [index.js], of the
    document store and broadcast channel they talk to, and of the form and
    list components of [src/App.tsx], followed by the properties of the
    create-and-broadcast flow and of the client views.

    Conventions of the embedding.
    - A JavaScript string is a [string]; each character stands for one code
      unit in the range U+0000..U+00FF.
    - A JavaScript number is an integer [Z]; where an operation can produce
      NaN the result is an [option Z] and [None] is NaN.  The result of
      [parseInt] is a [Number]: NaN, an infinity, or the integer that the
      double holds.
    - Handlers are written in a small exception-and-trace monad: every call
      on the store, the broadcast channel or the response object appends one
      [Effect] to the trace, in program order.
    - Console output is not modelled. *)

From Stdlib Require Import ZArith List String Ascii Bool Lia.
From Stdlib Require Import Permutation Sorted DecimalString.
Import ListNotations.

Open Scope string_scope.
Open Scope Z_scope.

Set Warnings "-register-all".

(* ================================================================== *)
(** ** The JavaScript runtime used by both programs *)
(* ================================================================== *)

Module Js.

(** Values produced by [JSON.parse] (request bodies, response bodies). *)
Inductive Json : Type :=
| JNull
| JBool (b : bool)
| JNum (n : Z)
| JStr (s : string)
| JArr (xs : list Json)
| JObj (fields : list (string * Json)).

(** Exceptions that the modelled code can raise. *)
Inductive Exn : Type :=
| TypeError
| RangeError
| StoreError.

Inductive Res (A : Type) : Type :=
| Ok (a : A)
| Throw (e : Exn).
Arguments Ok {A} a.
Arguments Throw {A} e.

Definition res_bind {A B} (r : Res A) (k : A -> Res B) : Res B :=
  match r with
  | Ok a => k a
  | Throw e => Throw e
  end.

(** [ToBoolean] on JSON values: [null], [false], [0] and the empty string are
    falsy; arrays and objects are truthy. *)
Definition json_truthy (j : Json) : bool :=
  match j with
  | JNull => false
  | JBool b => b
  | JNum n => negb (n =? 0)
  | JStr s => negb (String.eqb s "")
  | JArr _ => true
  | JObj _ => true
  end.

Fixpoint has_key {A} (k : string) (fields : list (string * A)) : bool :=
  match fields with
  | [] => false
  | (k', _) :: rest => if String.eqb k k' then true else has_key k rest
  end.

(** [Number::toString] for integers (decimal, below 10^21). *)
Definition Number_toString (n : Z) : string :=
  NilZero.string_of_int (Z.to_int n).

(** [ToString] on JSON values.  An array joins its elements with commas,
    [null] elements giving the empty string.  A plain object gives
    ["[object Object]"], unless it carries an own [toString] property: a JSON
    value is never callable, so [OrdinaryToPrimitive] finds no method and
    raises a TypeError. *)
Fixpoint ToString (j : Json) : Res string :=
  match j with
  | JNull => Ok "null"
  | JBool true => Ok "true"
  | JBool false => Ok "false"
  | JNum n => Ok (Number_toString n)
  | JStr s => Ok s
  | JArr xs =>
      (fix join (l : list Json) : Res string :=
         match l with
         | [] => Ok ""
         | x :: rest =>
             res_bind (match x with JNull => Ok "" | _ => ToString x end)
               (fun s =>
                  match rest with
                  | [] => Ok s
                  | _ :: _ => res_bind (join rest) (fun r => Ok (s ++ "," ++ r))
                  end)
         end) xs
  | JObj fields =>
      if has_key "toString" fields then Throw TypeError
      else Ok "[object Object]"
  end.

(** *** Dates *)

(** The [[DateValue]] of a Date object: a time value in milliseconds since
    the epoch, or NaN ([None]) for an Invalid Date. *)
Definition DateValue : Type := option Z.

Definition maxTime : Z := 8640000000000000.

Definition TimeClip (t : Z) : DateValue :=
  if Z.abs t <=? maxTime then Some t else None.

Definition msPerDay : Z := 86400000.

(** Year, month (1..12) and day of the month of a day number. *)
Definition civil_from_days (z : Z) : Z * Z * Z :=
  let z' := z + 719468 in
  let era := z' / 146097 in
  let doe := z' mod 146097 in
  let yoe := (doe - doe / 1460 + doe / 36524 - doe / 146096) / 365 in
  let y := yoe + era * 400 in
  let doy := doe - (365 * yoe + yoe / 4 - yoe / 100) in
  let mp := (5 * doy + 2) / 153 in
  let d := doy - (153 * mp + 2) / 5 + 1 in
  let m := if mp <? 10 then mp + 3 else mp - 9 in
  (if m <=? 2 then y + 1 else y, m, d).

Definition days_from_civil (y m d : Z) : Z :=
  let y' := if m <=? 2 then y - 1 else y in
  let era := y' / 400 in
  let yoe := y' - era * 400 in
  let mp := (m + 9) mod 12 in
  let doy := (153 * mp + 2) / 5 + d - 1 in
  let doe := yoe * 365 + yoe / 4 - yoe / 100 + doy in
  era * 146097 + doe - 719468.

Fixpoint zeros (n : nat) : string :=
  match n with
  | O => ""
  | S n' => String "0" (zeros n')
  end.

(** A non-negative integer in decimal, left-padded with zeros. *)
Definition pad (width : nat) (n : Z) : string :=
  let s := Number_toString n in
  zeros (width - String.length s) ++ s.

Definition year_string (y : Z) : string :=
  if (0 <=? y) && (y <=? 9999) then pad 4 y
  else (if y <? 0 then "-" else "+") ++ pad 6 (Z.abs y).

Definition iso_of_time (t : Z) : string :=
  let day := t / msPerDay in
  let r := t mod msPerDay in
  let '(y, m, d) := civil_from_days day in
  year_string y ++ "-" ++ pad 2 m ++ "-" ++ pad 2 d ++ "T"
    ++ pad 2 (r / 3600000) ++ ":" ++ pad 2 ((r / 60000) mod 60) ++ ":"
    ++ pad 2 ((r / 1000) mod 60) ++ "." ++ pad 3 (r mod 1000) ++ "Z".

(** [Date.prototype.toISOString]: a RangeError on an Invalid Date. *)
Definition toISOString (d : DateValue) : Res string :=
  match d with
  | None => Throw RangeError
  | Some t => Ok (iso_of_time t)
  end.

(** *** Strings *)

(** White space and line terminators removed by [String.prototype.trim]
    (those below U+0100). *)
Definition is_space (c : ascii) : bool :=
  let n := nat_of_ascii c in
  ((9 <=? n) && (n <=? 13))%nat || (n =? 32)%nat || (n =? 160)%nat.

Fixpoint trimStart (s : string) : string :=
  match s with
  | EmptyString => EmptyString
  | String c rest => if is_space c then trimStart rest else s
  end.

(** [trimEnd s] drops the trailing white space of [s]. *)
Fixpoint trimEnd (s : string) : string :=
  match s with
  | EmptyString => EmptyString
  | String c rest =>
      match trimEnd rest with
      | EmptyString => if is_space c then EmptyString else String c EmptyString
      | r => String c r
      end
  end.

Definition trim (s : string) : string := trimEnd (trimStart s).

(** [s.split(sep)] for a one-character separator: never empty, one more
    piece than there are separators. *)
Fixpoint split (sep : ascii) (s : string) : list string :=
  match s with
  | EmptyString => [EmptyString]
  | String c rest =>
      if Ascii.eqb c sep then EmptyString :: split sep rest
      else match split sep rest with
           | [] => [String c EmptyString]
           | piece :: pieces => String c piece :: pieces
           end
  end.

(** Vocabulary for stating what [split] and [trim] return. *)
Fixpoint count_char (c : ascii) (s : string) : nat :=
  match s with
  | EmptyString => O
  | String a rest => ((if Ascii.eqb a c then 1 else 0) + count_char c rest)%nat
  end.

Fixpoint all_space (s : string) : bool :=
  match s with
  | EmptyString => true
  | String c rest => is_space c && all_space rest
  end.

Definition starts_with_space (s : string) : bool :=
  match s with
  | EmptyString => false
  | String c _ => is_space c
  end.

Fixpoint ends_with_space (s : string) : bool :=
  match s with
  | EmptyString => false
  | String c EmptyString => is_space c
  | String _ rest => ends_with_space rest
  end.

(** [t] is [p] without its leading and trailing white space. *)
Definition is_trim_of (t p : string) : Prop :=
  exists l r,
    p = l ++ t ++ r /\ all_space l = true /\ all_space r = true /\
    starts_with_space t = false /\ ends_with_space t = false.

Definition digit_of (c : ascii) : option Z :=
  let n := nat_of_ascii c in
  if ((48 <=? n) && (n <=? 57))%nat then Some (Z.of_nat n - 48) else None.

(** The longest prefix of decimal digits of [s], read as a number, given the
    digits [acc] already read; [None] when there is none at all. *)
Fixpoint digits_prefix (s : string) (acc : option Z) : option Z :=
  match s with
  | EmptyString => acc
  | String c rest =>
      match digit_of c with
      | Some d =>
          digits_prefix rest (Some (match acc with
                                    | Some a => 10 * a + d
                                    | None => d
                                    end))
      | None => acc
      end
  end.

(** A number as [parseInt] returns it: NaN, an infinity, or a double that
    holds an integer.  The sign of zero is not kept; [JSON.stringify] and
    [!] do not tell the two zeros apart. *)
Inductive Number : Type :=
  | NaN
  | Infinity (negative : bool)
  | Finite (n : Z).

(** The double nearest to the integer [n >= 0], ties to the even
    significand; [None] when the rounded value is 2^1024 or more, which no
    double holds.  An integer below 2^53 is a double as it stands. *)
Definition round_to_double (n : Z) : option Z :=
  if n <? 2 ^ 53 then Some n
  else
    let e := Z.log2 n - 52 in
    let q := n / 2 ^ e in
    let r := n mod 2 ^ e in
    let half := 2 ^ (e - 1) in
    let q' := if (half <? r) || ((r =? half) && Z.odd q) then q + 1 else q in
    let v := q' * 2 ^ e in
    if v <? 2 ^ 1024 then Some v else None.

(** The Number value of a mathematical integer. *)
Definition Number_of_integer (n : Z) : Number :=
  match round_to_double (Z.abs n) with
  | Some v => Finite (Z.sgn n * v)
  | None => Infinity (n <? 0)
  end.

(** [parseInt(s, 10)]: leading white space skipped, an optional sign, then
    the longest run of digits, whose value is rounded to a double; NaN when
    no digit follows.  (Engines round the exact value of the digits; the
    language also lets an implementation read the digits after the 20th
    significant one as zeros.) *)
Definition parseInt10 (s : string) : Number :=
  match trimStart s with
  | String "-" rest =>
      match digits_prefix rest None with
      | Some n => Number_of_integer (- n)
      | None => NaN
      end
  | String "+" rest =>
      match digits_prefix rest None with
      | Some n => Number_of_integer n
      | None => NaN
      end
  | t =>
      match digits_prefix t None with
      | Some n => Number_of_integer n
      | None => NaN
      end
  end.

(** One date parser, for worked instances: it accepts exactly the date-only form
    [YYYY-MM-DD] of an existing calendar day (UTC midnight), which is what an
    [<input type="date">] submits, and gives NaN on anything else. *)
Definition Date_parse_date_only (s : string) : option Z :=
  match s with
  | String y1 (String y2 (String y3 (String y4 (String "-"
      (String m1 (String m2 (String "-" (String d1 (String d2 EmptyString))))))))) =>
      match digit_of y1, digit_of y2, digit_of y3, digit_of y4,
            digit_of m1, digit_of m2, digit_of d1, digit_of d2 with
      | Some a, Some b, Some c, Some d, Some e, Some f, Some g, Some h =>
          let y := 1000 * a + 100 * b + 10 * c + d in
          let m := 10 * e + f in
          let dd := 10 * g + h in
          let day := days_from_civil y m dd in
          let '(y', m', d') := civil_from_days day in
          if (y' =? y) && (m' =? m) && (d' =? dd) then Some (day * msPerDay)
          else None
      | _, _, _, _, _, _, _, _ => None
      end
  | _ => None
  end.

End Js.

(* ================================================================== *)
(** ** The document store client *)
(* ================================================================== *)

Module Firestore.
Import Js.

(** The store's timestamp type.  A Date written into a document is kept as a
    [Timestamp] and read back as one; the list handlers call [toDate] on it.
    The arithmetic is that of the client library ([Math.floor] for
    [fromMillis], [Math.round] for [toDate]). *)
Record Timestamp : Type := mkTimestamp {
  seconds : option Z;
  nanoseconds : option Z
}.

Definition MS_TO_NANOS : Z := 1000000.

(** [Timestamp.fromMillis(milliseconds)] computes the seconds and the
    nanoseconds and calls the constructor, which validates its arguments:
    NaN is not an integer, so the time value of an Invalid Date is refused
    with an error and no timestamp is built.  The constructor's further
    check, that the seconds lie within the years 0001 to 9999, is not
    modelled. *)
Definition fromMillis (milliseconds : DateValue) : Res Timestamp :=
  match milliseconds with
  | Some ms =>
      let s := ms / 1000 in
      Ok (mkTimestamp (Some s) (Some ((ms - s * 1000) * MS_TO_NANOS)))
  | None => Throw StoreError
  end.

(** [Timestamp.fromDate(date)] is [fromMillis(date.getTime())]. *)
Definition fromDate (date : DateValue) : Res Timestamp := fromMillis date.

(** [toDate()] is
    [new Date(seconds * 1000 + Math.round(nanoseconds / MS_TO_NANOS))]. *)
Definition toDate (ts : Timestamp) : DateValue :=
  match seconds ts, nanoseconds ts with
  | Some s, Some n => TimeClip (s * 1000 + (n + 500000) / MS_TO_NANOS)
  | _, _ => None
  end.

(** Nanoseconds since the epoch: the quantity that orders timestamps. *)
Definition ts_key (ts : Timestamp) : Z :=
  match seconds ts, nanoseconds ts with
  | Some s, Some n => s * 1000000000 + n
  | _, _ => 0
  end.

End Firestore.

(* ================================================================== *)
(** ** index.js: the record service *)
(* ================================================================== *)

Module Server.
Import Js Firestore.

(** Values held by the handlers' local variables and object fields: what
    destructuring the parsed body gives ([Undefined] for an absent field),
    Date objects, and the timestamps read back from the store. *)
Inductive Value : Type :=
| Undefined
| J (j : Json)
| DateObj (d : DateValue)
| Stamp (ts : Timestamp).

(** An object literal: its own properties in creation order. *)
Definition Object : Type := list (string * Value).

Definition truthy (v : Value) : bool :=
  match v with
  | Undefined => false
  | J j => json_truthy j
  | DateObj _ => true
  | Stamp _ => true
  end.

(** [a || b] *)
Definition or_else (a b : Value) : Value := if truthy a then a else b.

(** [const { k } = req.body] *)
Fixpoint field (k : string) (body : list (string * Json)) : Value :=
  match body with
  | [] => Undefined
  | (k', j) :: rest => if String.eqb k k' then J j else field k rest
  end.

(** [o.k] *)
Fixpoint get (k : string) (o : Object) : Value :=
  match o with
  | [] => Undefined
  | (k', v) :: rest => if String.eqb k k' then v else get k rest
  end.

(** [k: v] inside an object literal: an existing property keeps its place. *)
Fixpoint set (k : string) (v : Value) (o : Object) : Object :=
  match o with
  | [] => [(k, v)]
  | (k', v') :: rest =>
      if String.eqb k k' then (k, v) :: rest else (k', v') :: set k v rest
  end.

(** [{ ...acc, ...src }] *)
Definition spread (src acc : Object) : Object :=
  fold_left (fun o kv => set (fst kv) (snd kv) o) src acc.

(** A stored document: [doc.id] and [doc.data()], whose fields come back in
    the order in which they were written. *)
Record Doc : Type := mkDoc {
  doc_id : string;
  doc_data : Object
}.

(** What the store keeps of a record handed to [add]: Dates become
    timestamps.  (A Date that has no timestamp is left as it is here; [add]
    refuses the record, see [validate].) *)
Definition store_value (v : Value) : Value :=
  match v with
  | DateObj d =>
      match fromDate d with
      | Ok ts => Stamp ts
      | Throw _ => v
      end
  | _ => v
  end.

(** The store client encodes a record before it sends anything: every Date
    in it is converted with [Timestamp.fromDate], and the error of a
    conversion that fails is thrown out of [add]. *)
Fixpoint validate (data : Object) : Res unit :=
  match data with
  | [] => Ok tt
  | (_, DateObj d) :: rest => res_bind (fromDate d) (fun _ => validate rest)
  | _ :: rest => validate rest
  end.

Definition to_firestore (data : Object) : Object :=
  map (fun kv => (fst kv, store_value (snd kv))) data.

(** The sort key of [orderBy('created_at', ...)]. *)
Definition created_key (d : Doc) : Z :=
  match get "created_at" (doc_data d) with
  | Stamp ts => ts_key ts
  | _ => 0
  end.

Fixpoint insert_desc (d : Doc) (l : list Doc) : list Doc :=
  match l with
  | [] => [d]
  | x :: rest =>
      if created_key x <=? created_key d then d :: l
      else x :: insert_desc d rest
  end.

Fixpoint sort_desc (l : list Doc) : list Doc :=
  match l with
  | [] => []
  | d :: rest => insert_desc d (sort_desc rest)
  end.

(** [collection.orderBy('created_at', 'desc').get()]: the documents that
    have the field, newest first. *)
Definition orderBy_created_at_desc (docs : list Doc) : list Doc :=
  sort_desc (filter (fun d => has_key "created_at" (doc_data d)) docs).

(** The two collections, [artifacts/${appId}/public/data/assignments] and
    [artifacts/${appId}/public/data/users]. *)
Inductive Collection : Type :=
| assignmentsCollection
| usersCollection.

(** The process state the handlers share: whether [db] holds a store client
    (it stays undefined when the constructor threw at startup) and the
    contents of the two collections. *)
Record World : Type := mkWorld {
  db : bool;
  assignments : list Doc;
  users : list Doc
}.

Definition docs_of (c : Collection) (w : World) : list Doc :=
  match c with
  | assignmentsCollection => assignments w
  | usersCollection => users w
  end.

Definition add_doc (c : Collection) (d : Doc) (w : World) : World :=
  match c with
  | assignmentsCollection => mkWorld (db w) (assignments w ++ [d]) (users w)
  | usersCollection => mkWorld (db w) (assignments w) (users w ++ [d])
  end.

(** Response bodies of the data endpoints. *)
Inductive Body : Type :=
| ErrorBody (error : string)
| CreatedBody (message : string) (key : string) (record : Object)
| ListBody (records : list Object).

(** What a handler does to the outside, in program order.  The [reply] of a
    call of [add] is the id of the new document, or [None] when the call
    threw or its promise rejected. *)
Inductive Effect : Type :=
| StoreAdd (c : Collection) (data : Object) (reply : option string)
| StoreGet (c : Collection) (ok : bool)
| Emit (topic : string) (payload : Object)
| Respond (status : Z) (body : Body).

(** What the environment supplies to one request: the clock read by
    [new Date()], which is always a time value within the range of Dates,
    the store's answer to the [add] of a record that the client could
    encode (the new document id, or [None] when the promise rejects) and
    whether [get] resolves. *)
Record Env : Type := mkEnv {
  now : Z;
  now_in_range : (Z.abs now <=? maxTime) = true;
  add_reply : option string;
  get_reply : bool
}.

Record St : Type := mkSt {
  world : World;
  trace : list Effect
}.

(** Handler computations: state, trace and exceptions. *)
Definition H (A : Type) : Type := St -> Res A * St.

Definition ret {A} (a : A) : H A := fun st => (Ok a, st).

Definition bind {A B} (m : H A) (k : A -> H B) : H B :=
  fun st =>
    match m st with
    | (Ok a, st') => k a st'
    | (Throw e, st') => (Throw e, st')
    end.

Definition lift {A} (r : Res A) : H A := fun st => (r, st).

(** [try { m } catch (error) { handler }] *)
Definition try_catch {A} (m : H A) (handler : Exn -> H A) : H A :=
  fun st =>
    match m st with
    | (Ok a, st') => (Ok a, st')
    | (Throw e, st') => handler e st'
    end.

Definition perform (e : Effect) : H unit :=
  fun st => (Ok tt, mkSt (world st) (trace st ++ [e])).

Definition get_db : H bool := fun st => (Ok (db (world st)), st).

(** [res.status(status).json(body)] *)
Definition respond (status : Z) (body : Body) : H unit :=
  perform (Respond status body).

(** [io.emit(topic, payload)] *)
Definition io_emit (topic : string) (payload : Object) : H unit :=
  perform (Emit topic payload).

(** [await collection.add(data)]: throws when the record cannot be encoded,
    before anything is written; otherwise resolves with the reference of
    the new document, or rejects and leaves the collection as it was. *)
Definition collection_add (env : Env) (c : Collection) (data : Object)
  : H string :=
  fun st =>
    match validate data with
    | Throw e =>
        (Throw e, mkSt (world st) (trace st ++ [StoreAdd c data None]))
    | Ok _ =>
        match add_reply env with
        | Some id =>
            (Ok id,
             mkSt (add_doc c (mkDoc id (to_firestore data)) (world st))
                  (trace st ++ [StoreAdd c data (Some id)]))
        | None =>
            (Throw StoreError,
             mkSt (world st) (trace st ++ [StoreAdd c data None]))
        end
    end.

(** [await collection.orderBy('created_at', 'desc').get()], giving
    [snapshot.docs]. *)
Definition collection_get (env : Env) (c : Collection) : H (list Doc) :=
  fun st =>
    if get_reply env then
      (Ok (orderBy_created_at_desc (docs_of c (world st))),
       mkSt (world st) (trace st ++ [StoreGet c true]))
    else
      (Throw StoreError, mkSt (world st) (trace st ++ [StoreGet c false])).

(** [v.toDate()]: only a timestamp has the method. *)
Definition toDate_method (v : Value) : Res DateValue :=
  match v with
  | Stamp ts => Ok (toDate ts)
  | _ => Throw TypeError
  end.

Fixpoint mapM {A B} (f : A -> Res B) (l : list A) : Res (list B) :=
  match l with
  | [] => Ok []
  | x :: rest =>
      res_bind (f x) (fun y => res_bind (mapM f rest) (fun ys => Ok (y :: ys)))
  end.

Declare Scope handler_scope.
Delimit Scope handler_scope with handler.
Notation "x <- m ;; k" := (bind m (fun x => k))
  (at level 61, m at next level, right associativity) : handler_scope.
Notation "m ;; k" := (bind m (fun _ => k))
  (at level 61, right associativity) : handler_scope.

Section Handlers.

(** [Date.parse]: the result on a string outside the ISO format is left to
    the implementation, so the handlers are parameterised by it.  [None] is
    NaN. *)
Variable Date_parse : string -> option Z.

Definition parse_time (s : string) : DateValue :=
  match Date_parse s with
  | Some t => TimeClip t
  | None => None
  end.

(** [new Date(v)]: a string is parsed, any other primitive is converted to a
    number, an array or object goes through [ToString] first. *)
Definition new_Date (v : Value) : Res DateValue :=
  match v with
  | Undefined => Ok None
  | J JNull => Ok (Some 0)
  | J (JBool b) => Ok (Some (if b then 1 else 0))
  | J (JNum n) => Ok (TimeClip n)
  | J (JStr s) => Ok (parse_time s)
  | J j => res_bind (ToString j) (fun s => Ok (parse_time s))
  | DateObj d => Ok d
  | Stamp _ => Ok (parse_time "[object Object]")
  end.

(** [v.toISOString()]: only a Date has the method. *)
Definition toISOString_method (v : Value) : Res string :=
  match v with
  | DateObj d => toISOString d
  | _ => Throw TypeError
  end.

Local Open Scope handler_scope.

(** [app.post('/api/assignments', ...)] *)
Definition post_api_assignments (env : Env) (body : list (string * Json))
  : H unit :=
  db_ok <- get_db ;;
  if negb db_ok then respond 500 (ErrorBody "Database not initialized.")
  else
    let gig_id := field "gig_id" body in
    let assignee_id := field "assignee_id" body in
    let due_date := field "due_date" body in
    let status := field "status" body in
    if negb (truthy gig_id) || negb (truthy assignee_id)
       || negb (truthy due_date) || negb (truthy status)
    then respond 400 (ErrorBody "Missing required fields.")
    else
      try_catch
        (due <- lift (new_Date due_date) ;;
         let newAssignment : Object :=
           [("gig_id", gig_id); ("assignee_id", assignee_id);
            ("due_date", DateObj due); ("status", status);
            ("created_at", DateObj (Some (now env)))] in
         id <- collection_add env assignmentsCollection newAssignment ;;
         due_iso <- lift (toISOString_method (get "due_date" newAssignment)) ;;
         created_iso <-
           lift (toISOString_method (get "created_at" newAssignment)) ;;
         let createdAssignment : Object :=
           set "created_at" (J (JStr created_iso))
             (set "due_date" (J (JStr due_iso))
                (spread newAssignment [("id", J (JStr id))])) in
         io_emit "new_assignment" createdAssignment ;;
         respond 201
           (CreatedBody "Assignment added successfully" "assignment"
              createdAssignment))
        (fun _ => respond 500 (ErrorBody "Internal server error.")).

(** The element built for one document of [snapshot.docs] by
    [GET /api/assignments]. *)
Definition assignment_of_doc (doc : Doc) : Res Object :=
  let data := doc_data doc in
  res_bind (toDate_method (get "due_date" data)) (fun due =>
  res_bind (toISOString due) (fun due_iso =>
  res_bind (toDate_method (get "created_at" data)) (fun created =>
  res_bind (toISOString created) (fun created_iso =>
  Ok (set "created_at" (J (JStr created_iso))
        (set "due_date" (J (JStr due_iso))
           (spread data [("id", J (JStr (doc_id doc)))]))))))).

(** [app.get('/api/assignments', ...)] *)
Definition get_api_assignments (env : Env) : H unit :=
  db_ok <- get_db ;;
  if negb db_ok then respond 500 (ErrorBody "Database not initialized.")
  else
    try_catch
      (docs <- collection_get env assignmentsCollection ;;
       assignments <- lift (mapM assignment_of_doc docs) ;;
       respond 200 (ListBody assignments))
      (fun _ => respond 500 (ErrorBody "Internal server error.")).

(** [app.post('/api/users', ...)] *)
Definition post_api_users (env : Env) (body : list (string * Json))
  : H unit :=
  db_ok <- get_db ;;
  if negb db_ok then respond 500 (ErrorBody "Database not initialized.")
  else
    let username := field "username" body in
    let bio := field "bio" body in
    let skills := field "skills" body in
    if negb (truthy username)
    then respond 400 (ErrorBody "Username is a required field.")
    else
      try_catch
        (let newUser : Object :=
           [("username", username); ("bio", or_else bio (J (JStr "")));
            ("skills", or_else skills (J (JArr [])));
            ("created_at", DateObj (Some (now env)))] in
         id <- collection_add env usersCollection newUser ;;
         created_iso <- lift (toISOString_method (get "created_at" newUser)) ;;
         let createdUser : Object :=
           set "created_at" (J (JStr created_iso))
             (spread newUser [("id", J (JStr id))]) in
         io_emit "new_user" createdUser ;;
         respond 201
           (CreatedBody "User profile created successfully" "user" createdUser))
        (fun _ => respond 500 (ErrorBody "Internal server error.")).

(** The element built for one document by [GET /api/users]. *)
Definition user_of_doc (doc : Doc) : Res Object :=
  let data := doc_data doc in
  res_bind (toDate_method (get "created_at" data)) (fun created =>
  res_bind (toISOString created) (fun created_iso =>
  Ok (set "created_at" (J (JStr created_iso))
        (spread data [("id", J (JStr (doc_id doc)))])))).

(** [app.get('/api/users', ...)] *)
Definition get_api_users (env : Env) : H unit :=
  db_ok <- get_db ;;
  if negb db_ok then respond 500 (ErrorBody "Database not initialized.")
  else
    try_catch
      (docs <- collection_get env usersCollection ;;
       users <- lift (mapM user_of_doc docs) ;;
       respond 200 (ListBody users))
      (fun _ => respond 500 (ErrorBody "Internal server error.")).

End Handlers.

(** One request served from world [w]: the world afterwards and what the
    handler did. *)
Definition run (h : H unit) (w : World) : World * list Effect :=
  let st := snd (h (mkSt w [])) in (world st, trace st).

(** The payloads broadcast in a trace, with their topics. *)
Fixpoint emits (t : list Effect) : list (string * Object) :=
  match t with
  | [] => []
  | Emit topic payload :: rest => (topic, payload) :: emits rest
  | _ :: rest => emits rest
  end.

(** The responses sent in a trace. *)
Fixpoint responses (t : list Effect) : list (Z * Body) :=
  match t with
  | [] => []
  | Respond status body :: rest => (status, body) :: responses rest
  | _ :: rest => responses rest
  end.

(** The calls made on the store in a trace. *)
Fixpoint store_calls (t : list Effect) : list Effect :=
  match t with
  | [] => []
  | StoreAdd c data reply :: rest => StoreAdd c data reply :: store_calls rest
  | StoreGet c ok :: rest => StoreGet c ok :: store_calls rest
  | _ :: rest => store_calls rest
  end.

(** *** The record service by entity type

    The two entity kinds are handled alike; the definitions below name, for
    a collection, its creation and list handlers, its broadcast topic, the
    validation it applies and the records it builds. *)

Definition create (Date_parse : string -> option Z) (c : Collection)
  (env : Env) (body : list (string * Json)) : H unit :=
  match c with
  | assignmentsCollection => post_api_assignments Date_parse env body
  | usersCollection => post_api_users env body
  end.

Definition list_records (c : Collection) (env : Env) : H unit :=
  match c with
  | assignmentsCollection => get_api_assignments env
  | usersCollection => get_api_users env
  end.

Definition topic (c : Collection) : string :=
  match c with
  | assignmentsCollection => "new_assignment"
  | usersCollection => "new_user"
  end.

Definition item_of_doc (c : Collection) (doc : Doc) : Res Object :=
  match c with
  | assignmentsCollection => assignment_of_doc doc
  | usersCollection => user_of_doc doc
  end.

(** A request to one of the four data endpoints. *)
Inductive Incoming : Type :=
| Post (c : Collection) (body : list (string * Json))
| Get (c : Collection).

Definition handle (Date_parse : string -> option Z) (env : Env)
  (r : Incoming) : H unit :=
  match r with
  | Post c body => create Date_parse c env body
  | Get c => list_records c env
  end.

(** The server handling requests one after the other, each with what the
    environment supplies to it: the world at the end and everything done. *)
Fixpoint serve (Date_parse : string -> option Z) (w : World)
  (requests : list (Env * Incoming)) : World * list Effect :=
  match requests with
  | [] => (w, [])
  | (env, r) :: rest =>
      let step := run (handle Date_parse env r) w in
      let later := serve Date_parse (fst step) rest in
      (fst later, (snd step ++ snd later)%list)
  end.

(** The fields a creation payload must carry. *)
Definition required_fields (c : Collection) : list string :=
  match c with
  | assignmentsCollection => ["gig_id"; "assignee_id"; "due_date"; "status"]
  | usersCollection => ["username"]
  end.

(** The required fields are all present and truthy. *)
Definition required_present (c : Collection) (body : list (string * Json))
  : bool :=
  match c with
  | assignmentsCollection =>
      truthy (field "gig_id" body) && truthy (field "assignee_id" body)
      && truthy (field "due_date" body) && truthy (field "status" body)
  | usersCollection => truthy (field "username" body)
  end.

Definition missing_message (c : Collection) : string :=
  match c with
  | assignmentsCollection => "Missing required fields."
  | usersCollection => "Username is a required field."
  end.

Definition created_message (c : Collection) : string :=
  match c with
  | assignmentsCollection => "Assignment added successfully"
  | usersCollection => "User profile created successfully"
  end.

Definition created_key_name (c : Collection) : string :=
  match c with
  | assignmentsCollection => "assignment"
  | usersCollection => "user"
  end.

(** A field value that the list handlers can turn into ISO-8601 text: a
    timestamp whose [toDate()] is a valid Date. *)
Definition renderable (v : Value) : bool :=
  match v with
  | Stamp ts => match toDate ts with Some _ => true | None => false end
  | _ => false
  end.

(** A stored record of the entity type: its time fields are timestamps of
    valid dates. *)
Definition well_formed (c : Collection) (d : Doc) : bool :=
  match c with
  | assignmentsCollection =>
      renderable (get "due_date" (doc_data d))
      && renderable (get "created_at" (doc_data d))
  | usersCollection => renderable (get "created_at" (doc_data d))
  end.

(** The creation time of a stored record, in milliseconds, as the list
    handlers read it. *)
Definition created_ms (d : Doc) : Z :=
  match get "created_at" (doc_data d) with
  | Stamp ts => match toDate ts with Some t => t | None => 0 end
  | _ => 0
  end.

(** [a] is at least as recent as [b] by [key]. *)
Definition newest_first (key : Doc -> Z) (a b : Doc) : Prop := key a >= key b.

Definition db_error : Body := ErrorBody "Database not initialized.".
Definition internal_error : Body := ErrorBody "Internal server error.".

(** The record handed to [add] ([newAssignment], [newUser]); [due] is the
    Date built from the payload's [due_date]. *)
Definition new_record (c : Collection) (env : Env)
  (body : list (string * Json)) (due : DateValue) : Object :=
  match c with
  | assignmentsCollection =>
      [("gig_id", field "gig_id" body);
       ("assignee_id", field "assignee_id" body);
       ("due_date", DateObj due);
       ("status", field "status" body);
       ("created_at", DateObj (Some (now env)))]
  | usersCollection =>
      [("username", field "username" body);
       ("bio", or_else (field "bio" body) (J (JStr "")));
       ("skills", or_else (field "skills" body) (J (JArr [])));
       ("created_at", DateObj (Some (now env)))]
  end.

(** The canonical record ([createdAssignment], [createdUser]) of a payload:
    the store's [id], the entity's fields, and the time values [due] and
    [created] in ISO-8601 text. *)
Definition canonical_record (c : Collection) (id : string)
  (body : list (string * Json)) (due created : Z) : Object :=
  match c with
  | assignmentsCollection =>
      [("id", J (JStr id));
       ("gig_id", field "gig_id" body);
       ("assignee_id", field "assignee_id" body);
       ("due_date", J (JStr (iso_of_time due)));
       ("status", field "status" body);
       ("created_at", J (JStr (iso_of_time created)))]
  | usersCollection =>
      [("id", J (JStr id));
       ("username", field "username" body);
       ("bio", or_else (field "bio" body) (J (JStr "")));
       ("skills", or_else (field "skills" body) (J (JArr [])));
       ("created_at", J (JStr (iso_of_time created)))]
  end.

(** The Date a creation handler builds from the payload before it writes:
    [new Date(due_date)] for an assignment; a user profile has none, and the
    epoch stands in. *)
Definition due_of (Date_parse : string -> option Z) (c : Collection)
  (body : list (string * Json)) : Res DateValue :=
  match c with
  | assignmentsCollection => new_Date Date_parse (field "due_date" body)
  | usersCollection => Ok (Some 0)
  end.

(** *** Configuration read at startup *)

(** [typeof __app_id !== 'undefined' ? __app_id : 'default-app-id'] *)
Definition appId (app_id_global : option string) : string :=
  match app_id_global with
  | Some a => a
  | None => "default-app-id"
  end.

Definition collection_name (c : Collection) : string :=
  match c with
  | assignmentsCollection => "assignments"
  | usersCollection => "users"
  end.

(** The path handed to [db.collection] by the handlers of collection [c]:
    [artifacts/${appId}/public/data/assignments] and
    [artifacts/${appId}/public/data/users]. *)
Definition collection_path (app : string) (c : Collection) : string :=
  "artifacts/" ++ app ++ "/public/data/" ++ collection_name c.

(** The fields of a payload that a creation handler reads. *)
Definition entity_fields (c : Collection) : list string :=
  match c with
  | assignmentsCollection => ["gig_id"; "assignee_id"; "due_date"; "status"]
  | usersCollection => ["username"; "bio"; "skills"]
  end.

(** The requests of a run that post to collection [c]. *)
Fixpoint posts_to (c : Collection) (requests : list (Env * Incoming)) : nat :=
  match requests with
  | [] => O
  | (_, Post c' _) :: rest =>
      match c, c' with
      | assignmentsCollection, assignmentsCollection
      | usersCollection, usersCollection => S (posts_to c rest)
      | _, _ => posts_to c rest
      end
  | (_, Get _) :: rest => posts_to c rest
  end.

(** The payloads broadcast on one topic. *)
Definition emitted_on (tp : string) (t : list Effect) : list Object :=
  map snd (filter (fun e => String.eqb (fst e) tp) (emits t)).

End Server.

(* ================================================================== *)
(** ** src/App.tsx: the client views *)
(* ================================================================== *)

Module Client.
Import Js.

(** How a [fetch] call settles: the promise rejects with an error carrying
    [message], or resolves with a response whose [ok] flag is given and whose
    [json()] either rejects (left, the message of the error) or gives the
    parsed body (right). *)
Inductive FetchResult (A : Type) : Type :=
| NetworkError (message : string)
| Response (ok : bool) (json : string + A).
Arguments NetworkError {A} message.
Arguments Response {A} ok json.

(** A request issued through [fetch]; [body] is the value handed to
    [JSON.stringify]. *)
Record Request : Type := mkRequest {
  url : string;
  method : string;
  body : option Json
}.

(** [JSON.stringify] of a number: NaN and the infinities are written as
    [null]. *)
Definition json_of_number (n : Number) : Json :=
  match n with
  | Finite z => JNum z
  | NaN | Infinity _ => JNull
  end.

Definition json_field (k : string) (j : Json) : option Json :=
  match j with
  | JObj fields =>
      (fix find (l : list (string * Json)) : option Json :=
         match l with
         | [] => None
         | (k', v) :: rest => if String.eqb k k' then Some v else find rest
         end) fields
  | _ => None
  end.

(** The engine's wording of the two TypeErrors the error path can meet. *)
Definition msg_null_property : string :=
  "Cannot read properties of null (reading 'error')".
Definition msg_not_primitive : string :=
  "Cannot convert object to primitive value".

(** The [message] of what
    [throw new Error(errorData.error || fallback)] raises: reading [.error]
    off [null] is itself a TypeError, a missing or falsy [error] gives the
    fallback text, anything else is converted to a string. *)
Definition thrown_message (errorData : Json) (fallback : string) : string :=
  match errorData with
  | JNull => msg_null_property
  | _ =>
      match json_field "error" errorData with
      | Some e =>
          if json_truthy e then
            match ToString e with
            | Ok s => s
            | Throw _ => msg_not_primitive
            end
          else fallback
      | None => fallback
      end
  end.

(** The [try] block of a form's [handleSubmit] after [fetch] has settled:
    [None] when it runs to its end, [Some message] when it throws. *)
Definition submit_outcome (reply : FetchResult Json) (fallback : string)
  : option string :=
  match reply with
  | NetworkError message => Some message
  | Response true _ => None
  | Response false (inl message) => Some message
  | Response false (inr errorData) => Some (thrown_message errorData fallback)
  end.

(** [{message && <p>{message}</p>}]: [null] and the empty string render
    nothing. *)
Definition shown (message : option string) : option string :=
  match message with
  | Some m => if String.eqb m "" then None else Some m
  | None => None
  end.

(** What a form shows besides its inputs: the two message paragraphs and the
    submit button. *)
Record FormView : Type := mkFormView {
  shown_error : option string;
  shown_success : option string;
  button_label : string;
  button_disabled : bool
}.

(** *** AssignmentForm *)
Module AssignmentForm.

Record State : Type := mkState {
  gigId : string;
  assigneeId : string;
  dueDate : string;
  status : string;
  loading : bool;
  successMessage : option string;
  error : option string
}.

Definition initial : State :=
  mkState "" "" "" "in_progress" false None None.

Definition is_empty (s : string) : bool := String.eqb s "".

(** The client-side check passes: no field is empty. *)
Definition filled (st : State) : bool :=
  negb (is_empty (gigId st) || is_empty (assigneeId st)
        || is_empty (dueDate st) || is_empty (status st)).

(** [handleSubmit], run to completion against the way [fetch] settles: the
    state afterwards and the requests issued. *)
Definition handleSubmit (st : State) (reply : FetchResult Json)
  : State * list Request :=
  (* setLoading(true); setError(null); setSuccessMessage(null) *)
  let st := mkState (gigId st) (assigneeId st) (dueDate st) (status st)
                    true None None in
  if is_empty (gigId st) || is_empty (assigneeId st)
     || is_empty (dueDate st) || is_empty (status st)
  then
    (mkState (gigId st) (assigneeId st) (dueDate st) (status st)
             false (successMessage st) (Some "Please fill in all fields."),
     [])
  else
    let request :=
      mkRequest "/api/assignments" "POST"
        (Some (JObj [("gig_id", json_of_number (parseInt10 (gigId st)));
                     ("assignee_id", json_of_number (parseInt10 (assigneeId st)));
                     ("due_date", JStr (dueDate st));
                     ("status", JStr (status st))])) in
    let st :=
      match submit_outcome reply "Failed to add assignment." with
      | None =>
          mkState "" "" "" "in_progress" (loading st)
                  (Some "Assignment created successfully!") (error st)
      | Some message =>
          mkState (gigId st) (assigneeId st) (dueDate st) (status st)
                  (loading st) (successMessage st) (Some message)
      end in
    (* finally: setLoading(false) *)
    (mkState (gigId st) (assigneeId st) (dueDate st) (status st)
             false (successMessage st) (error st),
     [request]).

(** The object handed to [JSON.stringify] for the request body. *)
Definition request_fields (st : State) : list (string * Json) :=
  [("gig_id", json_of_number (parseInt10 (gigId st)));
   ("assignee_id", json_of_number (parseInt10 (assigneeId st)));
   ("due_date", JStr (dueDate st));
   ("status", JStr (status st))].

(** [handleSubmit] up to [await fetch(...)]: the state the component has
    while the request is in flight (or, when the check fails, at the early
    return) and the request issued. *)
Definition begin_submit (st : State) : State * list Request :=
  let st := mkState (gigId st) (assigneeId st) (dueDate st) (status st)
                    true None None in
  if is_empty (gigId st) || is_empty (assigneeId st)
     || is_empty (dueDate st) || is_empty (status st)
  then
    (mkState (gigId st) (assigneeId st) (dueDate st) (status st)
             false (successMessage st) (Some "Please fill in all fields."),
     [])
  else
    (st, [mkRequest "/api/assignments" "POST" (Some (JObj (request_fields st)))]).

(** [handleSubmit] from the moment [fetch] settles, applied to the state the
    component has by then: each setter replaces its own piece of state. *)
Definition settle_submit (st : State) (reply : FetchResult Json) : State :=
  let st :=
    match submit_outcome reply "Failed to add assignment." with
    | None =>
        mkState "" "" "" "in_progress" (loading st)
                (Some "Assignment created successfully!") (error st)
    | Some message =>
        mkState (gigId st) (assigneeId st) (dueDate st) (status st)
                (loading st) (successMessage st) (Some message)
    end in
  mkState (gigId st) (assigneeId st) (dueDate st) (status st)
          false (successMessage st) (error st).

(** The message paragraphs and the button of the rendered form. *)
Definition render (st : State) : FormView :=
  mkFormView (shown (error st)) (shown (successMessage st))
             (if loading st then "Adding..." else "Add Assignment")
             (loading st).

End AssignmentForm.

(** *** UserProfileForm *)
Module UserProfileForm.

Record State : Type := mkState {
  username : string;
  bio : string;
  skills : string;
  loading : bool;
  successMessage : option string;
  error : option string
}.

Definition initial : State := mkState "" "" "" false None None.

(** The client-side check passes: the username is not empty. *)
Definition filled (st : State) : bool := negb (String.eqb (username st) "").

(** [skills.split(',').map(s => s.trim())] *)
Definition skills_array (skills : string) : list string :=
  map trim (split "," skills).

Definition handleSubmit (st : State) (reply : FetchResult Json)
  : State * list Request :=
  (* setLoading(true); setError(null); setSuccessMessage(null) *)
  let st := mkState (username st) (bio st) (skills st) true None None in
  if String.eqb (username st) ""
  then
    (mkState (username st) (bio st) (skills st)
             false (successMessage st) (Some "Username is required."),
     [])
  else
    let request :=
      mkRequest "/api/users" "POST"
        (Some (JObj [("username", JStr (username st));
                     ("bio", JStr (bio st));
                     ("skills", JArr (map JStr (skills_array (skills st))))])) in
    let st :=
      match submit_outcome reply "Failed to create user profile." with
      | None =>
          mkState "" "" "" (loading st)
                  (Some "User profile created successfully!") (error st)
      | Some message =>
          mkState (username st) (bio st) (skills st)
                  (loading st) (successMessage st) (Some message)
      end in
    (* finally: setLoading(false) *)
    (mkState (username st) (bio st) (skills st)
             false (successMessage st) (error st),
     [request]).

(** The object handed to [JSON.stringify] for the request body. *)
Definition request_fields (st : State) : list (string * Json) :=
  [("username", JStr (username st));
   ("bio", JStr (bio st));
   ("skills", JArr (map JStr (skills_array (skills st))))].

(** [handleSubmit] up to [await fetch(...)]. *)
Definition begin_submit (st : State) : State * list Request :=
  let st := mkState (username st) (bio st) (skills st) true None None in
  if String.eqb (username st) ""
  then
    (mkState (username st) (bio st) (skills st)
             false (successMessage st) (Some "Username is required."),
     [])
  else
    (st, [mkRequest "/api/users" "POST" (Some (JObj (request_fields st)))]).

(** [handleSubmit] from the moment [fetch] settles, applied to the state the
    component has by then. *)
Definition settle_submit (st : State) (reply : FetchResult Json) : State :=
  let st :=
    match submit_outcome reply "Failed to create user profile." with
    | None =>
        mkState "" "" "" (loading st)
                (Some "User profile created successfully!") (error st)
    | Some message =>
        mkState (username st) (bio st) (skills st)
                (loading st) (successMessage st) (Some message)
    end in
  mkState (username st) (bio st) (skills st)
          false (successMessage st) (error st).

(** The message paragraphs and the button of the rendered form. *)
Definition render (st : State) : FormView :=
  mkFormView (shown (error st)) (shown (successMessage st))
             (if loading st then "Creating..." else "Create Profile")
             (loading st).

End UserProfileForm.

(** What a list component asks of the outside. *)
Inductive Command : Type :=
| Fetch (r : Request)
| SocketConnect
| SocketDisconnect.

(** What happens to a mounted list component: the effect runs, the initial
    fetch settles, a broadcast event carrying [record] arrives, the
    component is torn down. *)
Inductive Event (Rec : Type) : Type :=
| Mount
| FetchSettled (reply : FetchResult (list Rec))
| Broadcast (record : Rec)
| Unmount.
Arguments Mount {Rec}.
Arguments FetchSettled {Rec} reply.
Arguments Broadcast {Rec} record.
Arguments Unmount {Rec}.

(** What a list component renders: the loading notice, the error notice,
    the notice that nothing was found, or one card per record. *)
Inductive View (Rec : Type) : Type :=
| Loading
| Failed (message : string)
| Empty
| Cards (records : list Rec).
Arguments Loading {Rec}.
Arguments Failed {Rec} message.
Arguments Empty {Rec}.
Arguments Cards {Rec} records.

(** *** AssignmentsList *)
Module AssignmentsList.

Record Assignment : Type := mkAssignment {
  id : string;
  gig_id : Z;
  assignee_id : Z;
  due_date : string;
  status : string;
  created_at : string
}.

Record State : Type := mkState {
  assignments : list Assignment;
  loading : bool;
  error : option string
}.

Definition initial : State := mkState [] true None.

(** [fetchAssignments], from the moment [fetch] settles. *)
Definition fetchAssignments (st : State)
  (reply : FetchResult (list Assignment)) : State :=
  let st :=
    match reply with
    | NetworkError message =>
        mkState (assignments st) (loading st) (Some message)
    | Response false _ =>
        mkState (assignments st) (loading st)
                (Some "Failed to fetch assignments from API.")
    | Response true (inl message) =>
        mkState (assignments st) (loading st) (Some message)
    | Response true (inr data) => mkState data (loading st) (error st)
    end in
  mkState (assignments st) false (error st).

(** The listener registered with [socket.on('new_assignment', ...)]. *)
Definition on_new_assignment (newAssignment : Assignment) (st : State)
  : State :=
  mkState (newAssignment :: assignments st) (loading st) (error st).

Definition step (st : State) (e : Event Assignment) : State * list Command :=
  match e with
  | Mount =>
      (st, [Fetch (mkRequest "/api/assignments" "GET" None); SocketConnect])
  | FetchSettled reply => (fetchAssignments st reply, [])
  | Broadcast newAssignment => (on_new_assignment newAssignment st, [])
  | Unmount => (st, [SocketDisconnect])
  end.

(** The component after a sequence of events. *)
Definition after (st : State) (events : list (Event Assignment)) : State :=
  fold_left (fun s e => fst (step s e)) events st.

(** [if (loading) ...; if (error) ...; assignments.length === 0 ? ... : ...] *)
Definition render (st : State) : View Assignment :=
  if loading st then Loading
  else
    match shown (error st) with
    | Some message => Failed message
    | None =>
        match assignments st with
        | [] => Empty
        | records => Cards records
        end
    end.

End AssignmentsList.

(** *** UserProfilesList *)
Module UserProfilesList.

Record UserProfile : Type := mkUserProfile {
  id : string;
  username : string;
  bio : string;
  skills : list string;
  created_at : string
}.

Record State : Type := mkState {
  users : list UserProfile;
  loading : bool;
  error : option string
}.

Definition initial : State := mkState [] true None.

(** [fetchUsers], from the moment [fetch] settles. *)
Definition fetchUsers (st : State)
  (reply : FetchResult (list UserProfile)) : State :=
  let st :=
    match reply with
    | NetworkError message => mkState (users st) (loading st) (Some message)
    | Response false _ =>
        mkState (users st) (loading st)
                (Some "Failed to fetch user profiles from API.")
    | Response true (inl message) =>
        mkState (users st) (loading st) (Some message)
    | Response true (inr data) => mkState data (loading st) (error st)
    end in
  mkState (users st) false (error st).

(** The listener registered with [socket.on('new_user', ...)]. *)
Definition on_new_user (newUser : UserProfile) (st : State) : State :=
  mkState (newUser :: users st) (loading st) (error st).

Definition step (st : State) (e : Event UserProfile) : State * list Command :=
  match e with
  | Mount => (st, [Fetch (mkRequest "/api/users" "GET" None); SocketConnect])
  | FetchSettled reply => (fetchUsers st reply, [])
  | Broadcast newUser => (on_new_user newUser st, [])
  | Unmount => (st, [SocketDisconnect])
  end.

(** The component after a sequence of events. *)
Definition after (st : State) (events : list (Event UserProfile)) : State :=
  fold_left (fun s e => fst (step s e)) events st.

(** [if (loading) ...; if (error) ...; users.length === 0 ? ... : ...] *)
Definition render (st : State) : View UserProfile :=
  if loading st then Loading
  else
    match shown (error st) with
    | Some message => Failed message
    | None =>
        match users st with
        | [] => Empty
        | records => Cards records
        end
    end.

End UserProfilesList.

(** An event other than the settling of the initial fetch. *)
Definition not_settled {Rec} (e : Event Rec) : bool :=
  match e with
  | FetchSettled _ => false
  | _ => true
  end.

End Client.

(* ================================================================== *)
(** ** Between the client and the server *)
(* ================================================================== *)

Module Wire.
Import Js Server Client.

(** [response.ok]: the status is in the range 200-299. *)
Definition response_ok (status : Z) : bool :=
  (200 <=? status) && (status <=? 299).

(** [res.status(...).json({ error: '...' })] as the client parses it. *)
Definition error_json (error : string) : Json :=
  JObj [("error", JStr error)].

(** How [fetch] settles at the client when the handler sends [status] and
    [body]: [ok] follows the status; an error body is parsed back as the
    object the handler built, any other body as some JSON value. *)
Definition settles_as (status : Z) (body : Body) (reply : FetchResult Json)
  : Prop :=
  match body with
  | ErrorBody error => reply = Response (response_ok status) (inr (error_json error))
  | _ => exists j, reply = Response (response_ok status) (inr j)
  end.

End Wire.

(* ================================================================== *)
(** ** Sample requests, environments and states *)
(* ================================================================== *)

Module Sample.
Import Js Server Client.

(** 2023-11-14T22:13:20Z on the server clock; the store acknowledges [add]
    with the id [doc1] and answers reads. *)
Definition env_ack : Env := mkEnv 1700000000000 eq_refl (Some "doc1") true.

(** One second later, the next id. *)
Definition env_ack2 : Env := mkEnv 1700000001000 eq_refl (Some "doc2") true.

(** The store rejects writes and reads. *)
Definition env_reject : Env := mkEnv 1700000000000 eq_refl None false.

(** The store client is up and both collections are empty. *)
Definition w_empty : World := mkWorld true [] [].

(** The store client failed to initialise. *)
Definition w_down : World := mkWorld false [] [].

Definition body_assignment : list (string * Json) :=
  [("gig_id", JNum 7); ("assignee_id", JNum 3);
   ("due_date", JStr "2024-02-29"); ("status", JStr "pending")].

Definition body_no_status : list (string * Json) :=
  [("gig_id", JNum 7); ("assignee_id", JNum 3);
   ("due_date", JStr "2024-02-29")].

Definition body_bad_date : list (string * Json) :=
  [("gig_id", JNum 7); ("assignee_id", JNum 3);
   ("due_date", JStr "soon"); ("status", JStr "pending")].

Definition body_user : list (string * Json) :=
  [("username", JStr "ana"); ("bio", JStr "");
   ("skills", JArr [JStr "go"; JStr "rust"])].

(** The store after two assignments were created one second apart. *)
Definition w_two : World :=
  fst (run (create Date_parse_date_only assignmentsCollection env_ack2
              body_assignment)
         (fst (run (create Date_parse_date_only assignmentsCollection env_ack
                      body_assignment) w_empty))).

(** An assignment form filled in, showing the success message of an earlier
    submission. *)
Definition form_after_success : AssignmentForm.State :=
  AssignmentForm.mkState "12" "3" "2024-02-29" "pending" false
    (Some "Assignment created successfully!") None.

Definition profile_form : UserProfileForm.State :=
  UserProfileForm.mkState "ana" "" "go, rust, " false None None.

(** The sample assignment with an [id] and a [created_at] of the client's
    own added to the payload. *)
Definition body_with_id : list (string * Json) :=
  ("id", JStr "mine") :: ("created_at", JStr "1999-01-01")
  :: body_assignment.

(** An assignment whose [due_date] is an object with a [toString] entry. *)
Definition body_object_date : list (string * Json) :=
  [("gig_id", JNum 7); ("assignee_id", JNum 3);
   ("due_date", JObj [("toString", JNull)]); ("status", JStr "pending")].

(** A document written without [due_date], and a store whose assignments
    hold it. *)
Definition legacy_doc : Doc :=
  mkDoc "old"
    [("gig_id", J (JNum 1));
     ("created_at", Stamp (Firestore.mkTimestamp (Some 1700000000) (Some 0)))].

Definition w_legacy : World := mkWorld true [legacy_doc] [].


(** An assignment form whose gig id is a 1 followed by 309 zeros. *)
Definition form_long_gig : AssignmentForm.State :=
  AssignmentForm.mkState
    (String "1" (string_of_list_ascii (repeat "0"%char 309)))
    "3" "2024-02-29" "pending" false None None.

Definition assignment_a : AssignmentsList.Assignment :=
  AssignmentsList.mkAssignment "doc1" 7 3 "2024-02-29T00:00:00.000Z"
    "pending" "2023-11-14T22:13:20.000Z".

Definition assignment_b : AssignmentsList.Assignment :=
  AssignmentsList.mkAssignment "doc2" 8 3 "2024-03-01T00:00:00.000Z"
    "pending" "2023-11-14T22:13:21.000Z".

End Sample.

Import Js Firestore Server Client Wire.

Open Scope list_scope.

(* ================================================================== *)
(** ** Properties of the record service *)
(* ================================================================== *)

Section ServiceProperties.

Variable Date_parse : string -> option Z.

(** A field read from the payload is JSON or missing, never a Date. *)
Lemma field_cases (k : string) (body : list (string * Json)) :
  field k body = Undefined \/ exists j, field k body = J j.
Proof.
  induction body as [|[k' j] rest IH]; simpl; [left; reflexivity|].
  destruct (String.eqb k k'); [right; exists j; reflexivity|exact IH].
Qed.

Lemma validate_field (k k' : string) (body : list (string * Json))
    (rest : Object) :
  validate ((k', field k body) :: rest) = validate rest.
Proof.
  destruct (field_cases k body) as [E|[j E]]; rewrite E; reflexivity.
Qed.

Lemma validate_or_else (k k' : string) (body : list (string * Json))
    (j : Json) (rest : Object) :
  validate ((k', or_else (field k body) (J j)) :: rest) = validate rest.
Proof.
  unfold or_else. destruct (truthy (field k body)); [|reflexivity].
  apply validate_field.
Qed.

(** The record a creation handler hands to [add] is refused by the client
    exactly when it is an assignment whose due date is an Invalid Date. *)
Lemma validate_new_record (c : Collection) (env : Env)
    (body : list (string * Json)) (due : DateValue) :
  validate (new_record c env body due) =
  match c, due with
  | assignmentsCollection, None => Throw StoreError
  | _, _ => Ok tt
  end.
Proof.
  destruct c; unfold new_record.
  - rewrite !validate_field.
    destruct due as [d|]; [|reflexivity].
    change (validate (("due_date", DateObj (Some d))
                        :: ("status", field "status" body)
                        :: [("created_at", DateObj (Some (now env)))]))
      with (validate (("status", field "status" body)
                        :: [("created_at", DateObj (Some (now env)))])).
    rewrite validate_field. reflexivity.
  - rewrite validate_field, !validate_or_else. reflexivity.
Qed.

Local Arguments validate : simpl never.

(** The creation handlers in closed form: every path through
    [app.post('/api/assignments')] and [app.post('/api/users')], with the
    world it leaves and the effects it performs. *)
Lemma create_run (c : Collection) (env : Env) (body : list (string * Json))
    (w : World) :
  run (create Date_parse c env body) w =
  if negb (db w) then (w, [Respond 500 db_error])
  else if negb (required_present c body)
  then (w, [Respond 400 (ErrorBody (missing_message c))])
  else
    match due_of Date_parse c body with
    | Throw _ => (w, [Respond 500 internal_error])
    | Ok due =>
        let data := new_record c env body due in
        match add_reply env with
        | None => (w, [StoreAdd c data None; Respond 500 internal_error])
        | Some id =>
            let w' := add_doc c (mkDoc id (to_firestore data)) w in
            match due with
            | Some d =>
                let record := canonical_record c id body d (now env) in
                (w', [StoreAdd c data (Some id);
                      Emit (topic c) record;
                      Respond 201
                        (CreatedBody (created_message c) (created_key_name c)
                           record)])
            | None => (w, [StoreAdd c data None; Respond 500 internal_error])
            end
        end
    end.
Proof.
  destruct w as [dbw asg usr].
  destruct c; unfold run, create, post_api_assignments, post_api_users,
    bind, get_db, respond, perform, try_catch, lift, collection_add, io_emit;
    simpl.
  - destruct dbw; simpl; [|reflexivity].
    destruct (truthy (field "gig_id" body)); simpl; [|reflexivity].
    destruct (truthy (field "assignee_id" body)); simpl; [|reflexivity].
    destruct (truthy (field "due_date" body)); simpl; [|reflexivity].
    destruct (truthy (field "status" body)); simpl; [|reflexivity].
    destruct (new_Date Date_parse (field "due_date" body)) as [due|e]; simpl;
      [|reflexivity].
    pose proof (validate_new_record assignmentsCollection env body due) as Hv.
    simpl in Hv. rewrite Hv.
    destruct due as [d|]; simpl.
    + destruct (add_reply env) as [id|]; reflexivity.
    + destruct (add_reply env) as [id|]; reflexivity.
  - destruct dbw; simpl; [|reflexivity].
    destruct (truthy (field "username" body)); simpl; [|reflexivity].
    pose proof (validate_new_record usersCollection env body None) as Hv.
    simpl in Hv. rewrite Hv. simpl.
    destruct (add_reply env) as [id|]; reflexivity.
Qed.

(** The list handlers in closed form. *)
Lemma list_run (c : Collection) (env : Env) (w : World) :
  run (list_records c env) w =
  if negb (db w) then (w, [Respond 500 db_error])
  else if get_reply env then
    match mapM (item_of_doc c) (orderBy_created_at_desc (docs_of c w)) with
    | Ok items => (w, [StoreGet c true; Respond 200 (ListBody items)])
    | Throw _ => (w, [StoreGet c true; Respond 500 internal_error])
    end
  else (w, [StoreGet c false; Respond 500 internal_error]).
Proof.
  destruct w as [dbw asg usr].
  destruct c; unfold run, list_records, get_api_assignments, get_api_users,
    item_of_doc, bind, get_db, respond, perform, try_catch, lift,
    collection_get; simpl;
    (destruct dbw; simpl; [|reflexivity]);
    (destruct (get_reply env); simpl; [|reflexivity]).
  - destruct (mapM assignment_of_doc (orderBy_created_at_desc asg));
      reflexivity.
  - destruct (mapM user_of_doc (orderBy_created_at_desc usr)); reflexivity.
Qed.

Lemma required_present_forallb (c : Collection) (body : list (string * Json)) :
  required_present c body
  = forallb (fun k => truthy (field k body)) (required_fields c).
Proof.
  destruct c; simpl; rewrite ?andb_true_r, ?andb_assoc; reflexivity.
Qed.

Lemma required_missing (c : Collection) (body : list (string * Json))
    (k : string) :
  In k (required_fields c) -> truthy (field k body) = false ->
  required_present c body = false.
Proof.
  intros Hin Hk. rewrite required_present_forallb.
  destruct (forallb _ _) eqn:E; [|reflexivity].
  rewrite forallb_forall in E. rewrite (E k Hin) in Hk. discriminate.
Qed.

(** An absent field is read as [undefined], which is falsy. *)
Lemma field_absent (k : string) (body : list (string * Json)) :
  has_key k body = false -> field k body = Undefined.
Proof.
  induction body as [|[k' j] rest IH]; simpl; [reflexivity|].
  destruct (String.eqb k k'); [discriminate|exact IH].
Qed.

(** C9. When the store client failed to initialise, each of the four data
    endpoints answers 500 "Database not initialized." and does nothing
    else: the world is unchanged and the response is the only effect, so no
    store call, no validation outcome and no broadcast, whatever the request
    body and whatever the environment would have answered. *)
Theorem uninitialized_store_fails_fast (c : Collection) (env : Env)
    (body : list (string * Json)) (w : World) :
  db w = false ->
  run (create Date_parse c env body) w = (w, [Respond 500 db_error]) /\
  run (list_records c env) w = (w, [Respond 500 db_error]).
Proof.
  intros Hdb. rewrite create_run, list_run, Hdb. simpl. split; reflexivity.
Qed.

(** C2. A creation payload in which a required field is absent or falsy
    leaves the store as it was, calls the store not at all and broadcasts
    nothing; with the store client initialised the handler's only effect is
    the 400 response carrying the validation message. *)
Theorem missing_field_rejected (c : Collection) (env : Env)
    (body : list (string * Json)) (w : World) (k : string) :
  In k (required_fields c) ->
  has_key k body = false \/ truthy (field k body) = false ->
  fst (run (create Date_parse c env body) w) = w /\
  store_calls (snd (run (create Date_parse c env body) w)) = [] /\
  emits (snd (run (create Date_parse c env body) w)) = [] /\
  (db w = true ->
   snd (run (create Date_parse c env body) w)
   = [Respond 400 (ErrorBody (missing_message c))]).
Proof.
  intros Hin Hk. rewrite create_run.
  assert (Hfalsy : truthy (field k body) = false).
  { destruct Hk as [Habsent|Hfalsy]; [|exact Hfalsy].
    rewrite (field_absent k body Habsent). reflexivity. }
  rewrite (required_missing c body k Hin Hfalsy).
  destruct (db w); simpl; repeat split; try reflexivity.
  discriminate.
Qed.

(** Where an effect can sit in a trace of at most three effects. *)
Lemma in_short_trace (t pre post : list Effect) (x : Effect) :
  t = pre ++ x :: post -> (List.length t <= 3)%nat ->
  (pre = [] /\ t = x :: post)
  \/ (exists a, pre = [a] /\ t = a :: x :: post)
  \/ (exists a b, pre = [a; b] /\ t = a :: b :: x :: post).
Proof.
  intros -> Hlen.
  destruct pre as [|a [|b [|c pre]]]; simpl in *.
  - left. split; reflexivity.
  - right. left. exists a. split; reflexivity.
  - right. right. exists a, b. split; reflexivity.
  - rewrite length_app in Hlen. simpl in Hlen. lia.
Qed.

(** C1. In every creation request a broadcast comes only after the store
    has acknowledged the write.  If the write is rejected, the handler
    answers 500, broadcasts nothing and leaves the store as it was.  If a
    payload is broadcast, then earlier in the trace the store acknowledged
    [add] with the id the payload carries, and the document is in the
    collection. *)
Theorem broadcast_only_after_write (c : Collection) (env : Env)
    (body : list (string * Json)) (w : World) :
  let w' := fst (run (create Date_parse c env body) w) in
  let t := snd (run (create Date_parse c env body) w) in
  (forall data, In (StoreAdd c data None) t ->
     responses t = [(500, internal_error)] /\ emits t = [] /\ w' = w) /\
  (forall pre tp payload post, t = pre ++ Emit tp payload :: post ->
     exists data id,
       In (StoreAdd c data (Some id)) pre /\
       docs_of c w' = docs_of c w ++ [mkDoc id (to_firestore data)] /\
       get "id" payload = J (JStr id)).
Proof.
  intros w' t. subst w' t. rewrite create_run.
  destruct (db w) eqn:Hdb; simpl.
  2:{ split.
      - intros data [H|[]]. discriminate H.
      - intros pre tp payload post H.
        apply in_short_trace in H; [|simpl; lia].
        destruct H as [[_ H]|[(a & _ & H)|(a & b & _ & H)]]; discriminate H. }
  destruct (required_present c body); simpl.
  2:{ split.
      - intros data [H|[]]. discriminate H.
      - intros pre tp payload post H.
        apply in_short_trace in H; [|simpl; lia].
        destruct H as [[_ H]|[(a & _ & H)|(a & b & _ & H)]]; discriminate H. }
  destruct (due_of Date_parse c body) as [due|e]; simpl.
  2:{ split.
      - intros data [H|[]]. discriminate H.
      - intros pre tp payload post H.
        apply in_short_trace in H; [|simpl; lia].
        destruct H as [[_ H]|[(a & _ & H)|(a & b & _ & H)]]; discriminate H. }
  destruct (add_reply env) as [id|]; simpl.
  2:{ split.
      - intros data _. repeat split; reflexivity.
      - intros pre tp payload post H.
        apply in_short_trace in H; [|simpl; lia].
        destruct H as [[_ H]|[(a & _ & H)|(a & b & _ & H)]]; discriminate H. }
  destruct due as [d|]; simpl.
  - split.
    + intros data [H|[H|[H|[]]]]; discriminate H.
    + intros pre tp payload post H.
      apply in_short_trace in H; [|simpl; lia].
      destruct H as [[_ H]|[(a & Hpre & H)|(a & b & _ & H)]];
        try discriminate H.
      injection H as Ha Htp Hpayload Hpost. subst a pre payload.
      exists (new_record c env body (Some d)), id.
      split; [left; reflexivity|].
      split; [destruct c; reflexivity|].
      destruct c; reflexivity.
  - split.
    + intros data _. repeat split; reflexivity.
    + intros pre tp payload post H.
      apply in_short_trace in H; [|simpl; lia].
      destruct H as [[_ H]|[(a & _ & H)|(a & b & _ & H)]]; discriminate H.
Qed.


(** The path of an assignment whose [due_date] does not parse:
    [new Date(due_date)] is an Invalid Date, the store client cannot encode
    it, [add] throws and the [catch] block answers. *)
Lemma unparseable_due_date_run (env : Env) (body : list (string * Json))
    (w : World) (s : string) :
  db w = true ->
  required_present assignmentsCollection body = true ->
  field "due_date" body = J (JStr s) ->
  Date_parse s = None ->
  run (create Date_parse assignmentsCollection env body) w
  = (w, [StoreAdd assignmentsCollection
           (new_record assignmentsCollection env body None) None;
         Respond 500 internal_error]).
Proof.
  intros Hdb Hreq Hdue Hparse.
  assert (Hnew : due_of Date_parse assignmentsCollection body = Ok None).
  { simpl. rewrite Hdue. simpl. unfold parse_time. rewrite Hparse.
    reflexivity. }
  rewrite create_run, Hdb, Hreq, Hnew. simpl.
  destruct (add_reply env); reflexivity.
Qed.

(** C7, as the code has it.  An assignment payload whose required fields
    are all truthy but whose [due_date] is a string that does not parse
    fails at the write, not after it: the handler calls [add] with a record
    holding an Invalid Date, the store client refuses to encode it and
    throws before anything is written, and the handler answers 500,
    broadcasts nothing and leaves the store as it was, whatever the store
    would have answered to a record it could encode. *)
Theorem unparseable_due_date_fails_before_write (env : Env)
    (body : list (string * Json)) (w : World) (s : string) :
  db w = true ->
  required_present assignmentsCollection body = true ->
  field "due_date" body = J (JStr s) ->
  Date_parse s = None ->
  let data := new_record assignmentsCollection env body None in
  let w' := fst (run (create Date_parse assignmentsCollection env body) w) in
  let t := snd (run (create Date_parse assignmentsCollection env body) w) in
  t = [StoreAdd assignmentsCollection data None;
       Respond 500 internal_error] /\
  emits t = [] /\
  w' = w.
Proof.
  intros Hdb Hreq Hdue Hparse data w' t. subst data w' t.
  rewrite (unparseable_due_date_run env body w s Hdb Hreq Hdue Hparse).
  repeat split.
Qed.

(** *** Timestamps and the list path *)

Lemma TimeClip_some (t d : Z) : TimeClip t = Some d -> d = t /\ TimeClip d = Some d.
Proof.
  unfold TimeClip. destruct (Z.abs t <=? maxTime) eqn:E; [|discriminate].
  intros H. injection H as <-. rewrite E. split; reflexivity.
Qed.

(** A Date written to the store and read back is the same Date. *)
Lemma toDate_fromDate (t : Z) :
  TimeClip t = Some t ->
  exists ts, fromDate (Some t) = Ok ts /\ toDate ts = Some t.
Proof.
  intros H. unfold fromDate, fromMillis. eexists. split; [reflexivity|].
  unfold toDate. simpl.
  replace (t / 1000 * 1000 + ((t - t / 1000 * 1000) * MS_TO_NANOS + 500000) / MS_TO_NANOS)
    with t; [exact H|].
  unfold MS_TO_NANOS. rewrite Z.div_add_l by lia.
  change (500000 / 1000000) with 0. lia.
Qed.

Lemma now_TimeClip (env : Env) : TimeClip (now env) = Some (now env).
Proof. unfold TimeClip. rewrite (now_in_range env). reflexivity. Qed.

Lemma store_value_field (k : string) (body : list (string * Json)) :
  store_value (field k body) = field k body.
Proof.
  destruct (field_cases k body) as [->|[j ->]]; reflexivity.
Qed.

Lemma store_value_or_else (k : string) (body : list (string * Json)) (j : Json) :
  store_value (or_else (field k body) (J j)) = or_else (field k body) (J j).
Proof.
  unfold or_else. destruct (truthy (field k body)); [|reflexivity].
  apply store_value_field.
Qed.

(** The Date built from a payload field carries a clipped time value. *)
Lemma new_Date_clipped (k : string) (body : list (string * Json)) (d : Z) :
  new_Date Date_parse (field k body) = Ok (Some d) -> TimeClip d = Some d.
Proof.
  assert (Hparse : forall s, parse_time Date_parse s = Some d ->
                             TimeClip d = Some d).
  { intros s. unfold parse_time. destruct (Date_parse s) as [t|]; [|discriminate].
    intros H. apply TimeClip_some in H. apply H. }
  destruct (field_cases k body) as [->|[j ->]]; [discriminate|].
  destruct j as [|b|n|s|xs|fs]; unfold new_Date.
  - intros H. injection H as <-. reflexivity.
  - intros H. injection H as <-. destruct b; reflexivity.
  - intros H. injection H as H. apply TimeClip_some in H. apply H.
  - intros H. injection H as H. exact (Hparse s H).
  - destruct (ToString (JArr xs)) as [s|e]; [|discriminate].
    intros H. injection H as H. exact (Hparse s H).
  - destruct (ToString (JObj fs)) as [s|e]; [|discriminate].
    intros H. injection H as H. exact (Hparse s H).
Qed.

Local Arguments toDate : simpl never.
Local Arguments fromDate : simpl never.
Local Arguments iso_of_time : simpl never.

(** The document a successful creation stores is the one from which the
    list path rebuilds the canonical record. *)
Lemma item_of_stored_record (c : Collection) (env : Env)
    (body : list (string * Json)) (id : string) (d : Z) :
  due_of Date_parse c body = Ok (Some d) ->
  item_of_doc c (mkDoc id (to_firestore (new_record c env body (Some d))))
  = Ok (canonical_record c id body d (now env)).
Proof.
  intros Hdue.
  destruct (toDate_fromDate (now env) (now_TimeClip env)) as (tn & En & Hnow).
  unfold fromDate, fromMillis in En. injection En as <-.
  destruct c; simpl in *.
  - apply new_Date_clipped in Hdue. apply toDate_fromDate in Hdue.
    destruct Hdue as (td & Ed & Hdue).
    unfold fromDate, fromMillis in Ed. injection Ed as <-.
    unfold assignment_of_doc. simpl. rewrite Hdue, Hnow. simpl.
    rewrite !store_value_field. reflexivity.
  - unfold user_of_doc. simpl. rewrite Hnow. simpl.
    rewrite !store_value_field, !store_value_or_else. reflexivity.
Qed.

(** *** The ordered query *)

Lemma insert_desc_perm (d : Doc) (l : list Doc) :
  Permutation (insert_desc d l) (d :: l).
Proof.
  induction l as [|x rest IH]; simpl; [apply Permutation_refl|].
  destruct (created_key x <=? created_key d); [apply Permutation_refl|].
  apply perm_trans with (x :: d :: rest); [|apply perm_swap].
  apply perm_skip. exact IH.
Qed.

Lemma sort_desc_perm (l : list Doc) : Permutation (sort_desc l) l.
Proof.
  induction l as [|d rest IH]; simpl; [apply perm_nil|].
  apply perm_trans with (d :: sort_desc rest); [apply insert_desc_perm|].
  apply perm_skip. exact IH.
Qed.

Lemma insert_desc_sorted (d : Doc) (l : list Doc) :
  StronglySorted (newest_first created_key) l ->
  StronglySorted (newest_first created_key) (insert_desc d l).
Proof.
  induction 1 as [|x rest Hsorted IH Hx]; simpl.
  - constructor; constructor.
  - destruct (created_key x <=? created_key d) eqn:E.
    + apply Z.leb_le in E. constructor.
      * constructor; assumption.
      * constructor; [unfold newest_first; lia|].
        eapply Forall_impl; [|exact Hx].
        unfold newest_first. intros b Hb. lia.
    + apply Z.leb_gt in E. constructor; [exact IH|].
      apply (Permutation_Forall (Permutation_sym (insert_desc_perm d rest))).
      constructor; [unfold newest_first; lia|exact Hx].
Qed.

Lemma sort_desc_sorted (l : list Doc) :
  StronglySorted (newest_first created_key) (sort_desc l).
Proof.
  induction l as [|d rest IH]; simpl; [constructor|].
  apply insert_desc_sorted. exact IH.
Qed.

Lemma filter_all {A} (f : A -> bool) (l : list A) :
  forallb f l = true -> filter f l = l.
Proof.
  induction l as [|x rest IH]; simpl; [reflexivity|].
  destruct (f x); simpl; [|discriminate].
  intros H. rewrite (IH H). reflexivity.
Qed.

Lemma renderable_has_key (k : string) (o : Object) :
  renderable (get k o) = true -> has_key k o = true.
Proof.
  induction o as [|[k' v] rest IH]; simpl; [discriminate|].
  destruct (String.eqb k k'); [reflexivity|exact IH].
Qed.

Lemma well_formed_created_at (c : Collection) (d : Doc) :
  well_formed c d = true -> renderable (get "created_at" (doc_data d)) = true.
Proof.
  destruct c; simpl; [|trivial].
  intros H. apply andb_true_iff in H. apply H.
Qed.

(** Every well-formed record has the ordering field, so the ordered query
    returns a rearrangement of the whole collection. *)
Lemma orderBy_perm (c : Collection) (docs : list Doc) :
  forallb (well_formed c) docs = true ->
  Permutation (orderBy_created_at_desc docs) docs.
Proof.
  intros Hwf. unfold orderBy_created_at_desc.
  rewrite filter_all; [apply sort_desc_perm|].
  apply forallb_forall. intros d Hd.
  rewrite forallb_forall in Hwf.
  apply renderable_has_key, (well_formed_created_at c), Hwf, Hd.
Qed.

(** On a renderable timestamp the milliseconds read by the list path are the
    ordering key rounded to the millisecond. *)
Lemma created_ms_of_key (d : Doc) :
  renderable (get "created_at" (doc_data d)) = true ->
  created_ms d = (created_key d + 500000) / 1000000.
Proof.
  unfold created_ms, created_key, renderable.
  destruct (get "created_at" (doc_data d)) as [| |dv|ts]; try discriminate.
  unfold toDate, ts_key.
  destruct (seconds ts) as [sec|]; [|discriminate].
  destruct (nanoseconds ts) as [n|]; [|discriminate].
  destruct (TimeClip _) as [t|] eqn:E; [|discriminate].
  intros _. apply TimeClip_some in E. destruct E as [-> _].
  unfold MS_TO_NANOS.
  replace (sec * 1000000000 + n + 500000)
    with (sec * 1000 * 1000000 + (n + 500000)) by lia.
  rewrite Z.div_add_l by lia. reflexivity.
Qed.

Lemma sorted_by_created_ms (docs : list Doc) :
  Forall (fun d => renderable (get "created_at" (doc_data d)) = true) docs ->
  StronglySorted (newest_first created_key) docs ->
  StronglySorted (newest_first created_ms) docs.
Proof.
  intros Hwf Hsorted. induction Hsorted as [|x rest Hsorted IH Hx];
    [constructor|].
  apply Forall_cons_iff in Hwf. destruct Hwf as [Hwx Hwrest].
  constructor; [exact (IH Hwrest)|].
  rewrite Forall_forall in *. intros b Hb.
  unfold newest_first.
  rewrite (created_ms_of_key x Hwx), (created_ms_of_key b (Hwrest b Hb)).
  specialize (Hx b Hb). unfold newest_first in Hx.
  apply Z.le_ge, Z.div_le_mono; lia.
Qed.

Lemma get_set_same (k : string) (v : Value) (o : Object) :
  get k (set k v o) = v.
Proof.
  induction o as [|[k' v'] rest IH]; simpl.
  - rewrite String.eqb_refl. reflexivity.
  - destruct (String.eqb k k') eqn:E; simpl.
    + rewrite String.eqb_refl. reflexivity.
    + rewrite E. exact IH.
Qed.

(** The list path renders a well-formed record, and the [created_at] it
    writes is the ISO-8601 text of the record's creation time. *)
Lemma item_of_well_formed (c : Collection) (d : Doc) :
  well_formed c d = true ->
  exists item, item_of_doc c d = Ok item /\
    get "created_at" item = J (JStr (iso_of_time (created_ms d))).
Proof.
  assert (Hr : forall v, renderable v = true ->
            exists ts t, v = Stamp ts /\ toDate ts = Some t).
  { intros [| |dv|ts]; simpl; try discriminate.
    destruct (toDate ts) as [t|] eqn:E; [|discriminate].
    intros _. exists ts, t. split; [reflexivity|exact E]. }
  destruct c; simpl; unfold assignment_of_doc, user_of_doc, created_ms.
  - intros H. apply andb_true_iff in H. destruct H as [Hdue Hcr].
    apply Hr in Hdue. destruct Hdue as (ts1 & t1 & E1 & T1).
    apply Hr in Hcr. destruct Hcr as (ts2 & t2 & E2 & T2).
    rewrite E1, E2. simpl. rewrite T1, T2. simpl.
    eexists. split; [reflexivity|]. apply get_set_same.
  - intros Hcr. apply Hr in Hcr. destruct Hcr as (ts2 & t2 & E2 & T2).
    rewrite E2. simpl. rewrite T2. simpl.
    eexists. split; [reflexivity|]. apply get_set_same.
Qed.

Lemma mapM_Forall2 {A B} (f : A -> Res B) (P : A -> B -> Prop) (l : list A) :
  Forall (fun x => exists y, f x = Ok y /\ P x y) l ->
  exists ys, mapM f l = Ok ys /\ Forall2 (fun x y => f x = Ok y /\ P x y) l ys.
Proof.
  induction 1 as [|x rest (y & Hy & HP) Hrest (ys & Hys & HF)]; simpl.
  - exists []. split; [reflexivity|constructor].
  - exists (y :: ys). rewrite Hy, Hys. simpl.
    split; [reflexivity|]. constructor; [split; assumption|exact HF].
Qed.

Lemma mapM_In {A B} (f : A -> Res B) (l : list A) (ys : list B) (x : A) :
  mapM f l = Ok ys -> In x l -> exists y, f x = Ok y /\ In y ys.
Proof.
  revert ys. induction l as [|a rest IH]; simpl; intros ys Hm Hin; [contradiction|].
  destruct (f a) as [b|e] eqn:Ea; simpl in Hm; [|discriminate].
  destruct (mapM f rest) as [bs|e] eqn:Er; simpl in Hm; [|discriminate].
  injection Hm as <-. destruct Hin as [<-|Hin].
  - exists b. split; [exact Ea|left; reflexivity].
  - destruct (IH bs eq_refl Hin) as (y & Hy & Hiny).
    exists y. split; [exact Hy|right; exact Hiny].
Qed.

(** C5. For every state of a collection whose records are well formed, the
    list handler (store client initialised, the read succeeding) answers 200
    with one element per record of the collection, none left out, in an
    order in which every record comes before each record created earlier:
    for A before B, A.created_at >= B.created_at.  Each element's
    [created_at] is the ISO-8601 text of that creation time. *)
Theorem list_sorted_by_created_at_desc (c : Collection) (env : Env)
    (w : World) :
  db w = true ->
  get_reply env = true ->
  forallb (well_formed c) (docs_of c w) = true ->
  exists docs items,
    run (list_records c env) w
    = (w, [StoreGet c true; Respond 200 (ListBody items)]) /\
    Permutation docs (docs_of c w) /\
    Forall2 (fun d item =>
               item_of_doc c d = Ok item /\
               get "created_at" item = J (JStr (iso_of_time (created_ms d))))
            docs items /\
    StronglySorted (newest_first created_ms) docs.
Proof.
  intros Hdb Hget Hwf.
  pose proof (orderBy_perm c _ Hwf) as Hperm.
  assert (Hall : Forall (fun d => well_formed c d = true)
                        (orderBy_created_at_desc (docs_of c w))).
  { apply (Permutation_Forall (Permutation_sym Hperm)).
    apply Forall_forall. apply forallb_forall. exact Hwf. }
  destruct (mapM_Forall2 (item_of_doc c)
              (fun d item =>
                 get "created_at" item = J (JStr (iso_of_time (created_ms d))))
              (orderBy_created_at_desc (docs_of c w))) as (items & Hitems & HF).
  { eapply Forall_impl; [|exact Hall]. intros d. apply item_of_well_formed. }
  exists (orderBy_created_at_desc (docs_of c w)), items.
  split; [rewrite list_run, Hdb, Hget, Hitems; reflexivity|].
  split; [exact Hperm|]. split; [exact HF|].
  apply sorted_by_created_ms.
  - eapply Forall_impl; [|exact Hall]. intros d. apply well_formed_created_at.
  - apply sort_desc_sorted.
Qed.

(** A stored record with the ordering field is among the documents the
    ordered query returns. *)
Lemma orderBy_In (doc : Doc) (docs : list Doc) :
  In doc docs -> has_key "created_at" (doc_data doc) = true ->
  In doc (orderBy_created_at_desc docs).
Proof.
  intros Hin Hkey. unfold orderBy_created_at_desc.
  apply (Permutation_in doc (Permutation_sym (sort_desc_perm _))).
  apply filter_In. split; assumption.
Qed.

(** The collections only grow: a stored record stays stored through every
    later request. *)
Lemma docs_persist (c c' : Collection) (env : Env)
    (body : list (string * Json)) (w : World) (doc : Doc) :
  In doc (docs_of c w) ->
  In doc (docs_of c (fst (run (create Date_parse c' env body) w))) /\
  In doc (docs_of c (fst (run (list_records c' env) w))).
Proof.
  intros Hin. rewrite create_run, list_run. split.
  - destruct (db w); simpl; [|exact Hin].
    destruct (required_present c' body); simpl; [|exact Hin].
    destruct (due_of Date_parse c' body) as [due|e]; simpl; [|exact Hin].
    destruct (add_reply env) as [id|]; simpl; [|exact Hin].
    assert (Hgrow : In doc (docs_of c (add_doc c'
              (mkDoc id (to_firestore (new_record c' env body due))) w))).
    { destruct c, c'; simpl; try exact Hin; apply in_or_app; left; exact Hin. }
    destruct due; [exact Hgrow|exact Hin].
  - destruct (db w); simpl; [|exact Hin].
    destruct (get_reply env); simpl; [|exact Hin].
    destruct (mapM _ _); exact Hin.
Qed.

(** A successful listing contains the element built from each stored
    record that has the ordering field. *)
Lemma listing_contains (c : Collection) (doc : Doc) (payload : Object) :
  item_of_doc c doc = Ok payload ->
  has_key "created_at" (doc_data doc) = true ->
  forall env2 w2 items,
    In doc (docs_of c w2) ->
    In (Respond 200 (ListBody items)) (snd (run (list_records c env2) w2)) ->
    In payload items.
Proof.
  intros Hitem Hkey env2 w2 items Hin. rewrite list_run.
  destruct (db w2); simpl; [|intros [H|[]]; discriminate H].
  destruct (get_reply env2); simpl; [|intros [H|[H|[]]]; discriminate H].
  destruct (mapM _ _) as [ys|e] eqn:Hm; simpl;
    [|intros [H|[H|[]]]; discriminate H].
  intros [H|[H|[]]]; [discriminate H|]. injection H as <-.
  destruct (mapM_In _ _ _ _ Hm (orderBy_In _ _ Hin Hkey)) as (y & Hy & Hiny).
  rewrite Hitem in Hy. injection Hy as <-. exact Hiny.
Qed.

(** C4. When a creation answers 201, exactly one payload is broadcast and one
    document is appended to the collection, and the element the list path
    builds from that document is that payload, field for field and with the
    same ISO-8601 text for the dates.  Hence every later successful listing
    of a collection holding the document contains the broadcast payload. *)
Theorem broadcast_equals_list_element (c : Collection) (env : Env)
    (body : list (string * Json)) (w : World) (body201 : Body) :
  In (Respond 201 body201) (snd (run (create Date_parse c env body) w)) ->
  exists doc payload,
    emits (snd (run (create Date_parse c env body) w)) = [(topic c, payload)] /\
    docs_of c (fst (run (create Date_parse c env body) w))
    = docs_of c w ++ [doc] /\
    item_of_doc c doc = Ok payload /\
    forall env2 w2 items,
      In doc (docs_of c w2) ->
      In (Respond 200 (ListBody items)) (snd (run (list_records c env2) w2)) ->
      In payload items.
Proof.
  rewrite create_run.
  destruct (db w); simpl;
    [|intros [H|[]]; discriminate H].
  destruct (required_present c body); simpl;
    [|intros [H|[]]; discriminate H].
  destruct (due_of Date_parse c body) as [due|e] eqn:Hdue; simpl;
    [|intros [H|[]]; discriminate H].
  destruct (add_reply env) as [id|]; simpl;
    [|intros [H|[H|[]]]; discriminate H].
  destruct due as [d|]; simpl;
    [|intros [H|[H|[]]]; discriminate H].
  intros _.
  exists (mkDoc id (to_firestore (new_record c env body (Some d)))),
         (canonical_record c id body d (now env)).
  split; [reflexivity|].
  split; [destruct c; reflexivity|].
  pose proof (item_of_stored_record c env body id d Hdue) as Hitem.
  split; [exact Hitem|].
  apply (listing_contains c _ _ Hitem). destruct c; reflexivity.
Qed.

(** Well-formedness is kept by every creation: a record with a Date that
    is not valid is not written, so it holds of every collection filled
    through the service. *)
Lemma create_keeps_well_formed (c c' : Collection) (env : Env)
    (body : list (string * Json)) (w : World) :
  forallb (well_formed c) (docs_of c w) = true ->
  forallb (well_formed c)
          (docs_of c (fst (run (create Date_parse c' env body) w))) = true.
Proof.
  intros Hwf. rewrite create_run.
  destruct (db w); simpl; [|exact Hwf].
  destruct (required_present c' body); simpl; [|exact Hwf].
  destruct (due_of Date_parse c' body) as [due|e] eqn:Hdue; simpl;
    [|exact Hwf].
  destruct (add_reply env) as [id|] eqn:Hadd; simpl; [|exact Hwf].
  destruct due as [d|]; [|exact Hwf].
  cbn [fst].
  assert (Hnew : well_formed c'
            (mkDoc id (to_firestore (new_record c' env body (Some d)))) = true).
  { destruct (toDate_fromDate (now env) (now_TimeClip env))
      as (tn & En & Hnow).
    unfold fromDate, fromMillis in En. injection En as <-.
    destruct c'; simpl in *.
    - apply new_Date_clipped, toDate_fromDate in Hdue.
      destruct Hdue as (td & Ed & Hdue).
      unfold fromDate, fromMillis in Ed. injection Ed as <-.
      rewrite Hdue, Hnow. reflexivity.
    - rewrite Hnow. reflexivity. }
  destruct c, c'; unfold docs_of, add_doc in *; cbn [assignments users] in *;
    try exact Hwf;
    rewrite forallb_app, Hwf; cbn [forallb]; rewrite Hnew; reflexivity.
Qed.

(** *** The service over a run of requests *)

Lemma emits_app (t1 t2 : list Effect) :
  emits (t1 ++ t2) = emits t1 ++ emits t2.
Proof.
  induction t1 as [|e rest IH]; simpl; [reflexivity|].
  destruct e; simpl; rewrite IH; reflexivity.
Qed.

(** What one request publishes is stored by the time it has been handled,
    and the list path renders the stored document as the payload. *)
Lemma handle_published_stored (env : Env) (r : Incoming) (w : World)
    (tp : string) (payload : Object) :
  In (tp, payload) (emits (snd (run (handle Date_parse env r) w))) ->
  exists c doc,
    tp = topic c /\
    In doc (docs_of c (fst (run (handle Date_parse env r) w))) /\
    has_key "created_at" (doc_data doc) = true /\
    item_of_doc c doc = Ok payload.
Proof.
  destruct r as [c body|c]; simpl handle.
  - rewrite create_run.
    destruct (db w); simpl; [|contradiction].
    destruct (required_present c body); simpl; [|contradiction].
    destruct (due_of Date_parse c body) as [due|e] eqn:Hdue; simpl;
      [|contradiction].
    destruct (add_reply env) as [id|]; simpl; [|contradiction].
    destruct due as [d|]; simpl; [|contradiction].
    intros [H|[]]. injection H as <- <-.
    exists c, (mkDoc id (to_firestore (new_record c env body (Some d)))).
    split; [reflexivity|].
    split; [destruct c; simpl; apply in_or_app; right; left; reflexivity|].
    split; [destruct c; reflexivity|].
    apply item_of_stored_record. exact Hdue.
  - rewrite list_run.
    destruct (db w); simpl; [|contradiction].
    destruct (get_reply env); simpl; [|contradiction].
    destruct (mapM _ _); simpl; contradiction.
Qed.

Lemma handle_keeps_docs (c : Collection) (env : Env) (r : Incoming)
    (w : World) (doc : Doc) :
  In doc (docs_of c w) ->
  In doc (docs_of c (fst (run (handle Date_parse env r) w))).
Proof.
  intros Hin. destruct r as [c' body|c']; simpl handle.
  - apply (docs_persist c c' env body w doc Hin).
  - apply (docs_persist c c' env [] w doc Hin).
Qed.

Lemma serve_keeps_docs (c : Collection) (requests : list (Env * Incoming))
    (w : World) (doc : Doc) :
  In doc (docs_of c w) ->
  In doc (docs_of c (fst (serve Date_parse w requests))).
Proof.
  revert w. induction requests as [|[env r] rest IH]; intros w Hin; simpl;
    [exact Hin|].
  apply IH, handle_keeps_docs, Hin.
Qed.

(** X10. Over any run of requests, whatever was broadcast is in the store
    at the end of the run, and a listing renders it as it was broadcast. *)
Lemma published_records_are_stored (requests : list (Env * Incoming))
    (w : World) (tp : string) (payload : Object) :
  In (tp, payload) (emits (snd (serve Date_parse w requests))) ->
  exists c doc,
    tp = topic c /\
    In doc (docs_of c (fst (serve Date_parse w requests))) /\
    item_of_doc c doc = Ok payload.
Proof.
  revert w. induction requests as [|[env r] rest IH]; intros w; simpl;
    [contradiction|].
  rewrite emits_app. intros H. apply in_app_or in H. destruct H as [H|H].
  - apply handle_published_stored in H.
    destruct H as (c & doc & Htp & Hin & _ & Hitem).
    exists c, doc. split; [exact Htp|]. split; [|exact Hitem].
    apply serve_keeps_docs. exact Hin.
  - apply IH. exact H.
Qed.

End ServiceProperties.

(* ================================================================== *)
(** ** Properties of the client views *)
(* ================================================================== *)

(** C6. On a broadcast event carrying [r], each list component's state
    becomes [r] followed by the sequence it displayed, whatever that sequence
    was (sorted or not, containing [r] already or not); [loading] and
    [error] are untouched and the component asks nothing of the outside, so
    it neither fetches again nor reorders nor drops an element. *)
Theorem broadcast_prepends :
  (forall (r : AssignmentsList.Assignment) (st : AssignmentsList.State),
     AssignmentsList.step st (Broadcast r)
     = (AssignmentsList.mkState (r :: AssignmentsList.assignments st)
          (AssignmentsList.loading st) (AssignmentsList.error st), [])) /\
  (forall (r : UserProfilesList.UserProfile) (st : UserProfilesList.State),
     UserProfilesList.step st (Broadcast r)
     = (UserProfilesList.mkState (r :: UserProfilesList.users st)
          (UserProfilesList.loading st) (UserProfilesList.error st), [])).
Proof. split; intros r st; reflexivity. Qed.

(** A run of broadcast events stacks the records, latest on top. *)
Lemma broadcasts_stack (rs : list AssignmentsList.Assignment)
    (st : AssignmentsList.State) :
  AssignmentsList.assignments
    (fold_left (fun s r => fst (AssignmentsList.step s (Broadcast r))) rs st)
  = rev rs ++ AssignmentsList.assignments st.
Proof.
  revert st. induction rs as [|r rest IH]; intros st; simpl; [reflexivity|].
  rewrite IH. simpl. rewrite <- app_assoc. reflexivity.
Qed.

(** *** The skills input *)

Lemma split_nonempty (sep : ascii) (s : string) : split sep s <> [].
Proof.
  destruct s as [|c rest]; simpl; [discriminate|].
  destruct (Ascii.eqb c sep); [discriminate|].
  destruct (split sep rest); discriminate.
Qed.

(** Joining the pieces with the separator gives the input back. *)
Lemma concat_split (sep : ascii) (s : string) :
  String.concat (String sep EmptyString) (split sep s) = s.
Proof.
  induction s as [|c rest IH]; simpl; [reflexivity|].
  destruct (Ascii.eqb c sep) eqn:E.
  - apply Ascii.eqb_eq in E. subst c.
    destruct (split sep rest) as [|p ps] eqn:Es;
      [exfalso; exact (split_nonempty sep rest Es)|].
    simpl in *. rewrite IH. reflexivity.
  - destruct (split sep rest) as [|p ps] eqn:Es;
      [exfalso; exact (split_nonempty sep rest Es)|].
    destruct ps as [|q qs]; simpl in *; rewrite IH; reflexivity.
Qed.

Lemma split_length (sep : ascii) (s : string) :
  List.length (split sep s) = S (count_char sep s).
Proof.
  induction s as [|c rest IH]; simpl; [reflexivity|].
  destruct (Ascii.eqb c sep); simpl; [rewrite IH; reflexivity|].
  destruct (split sep rest) as [|p ps] eqn:Es;
    [exfalso; exact (split_nonempty sep rest Es)|].
  simpl in *. exact IH.
Qed.

Lemma split_pieces (sep : ascii) (s : string) :
  Forall (fun p => count_char sep p = O) (split sep s).
Proof.
  induction s as [|c rest IH]; simpl; [constructor; [reflexivity|constructor]|].
  destruct (Ascii.eqb c sep) eqn:E; [constructor; [reflexivity|exact IH]|].
  destruct (split sep rest) as [|p ps];
    [constructor; [simpl; rewrite E; reflexivity|constructor]|].
  apply Forall_cons_iff in IH. destruct IH as [Hp Hps].
  constructor; [simpl; rewrite E, Hp; reflexivity|exact Hps].
Qed.

Lemma trimStart_spec (s : string) :
  exists l, s = (l ++ trimStart s)%string /\ all_space l = true /\
            starts_with_space (trimStart s) = false.
Proof.
  induction s as [|c rest (l & Hl & Hsp & Hst)]; simpl.
  - exists EmptyString. repeat split.
  - destruct (is_space c) eqn:E.
    + exists (String c l). simpl. rewrite E, Hsp, <- Hl. repeat split.
      exact Hst.
    + exists EmptyString. simpl. rewrite E. repeat split.
Qed.

Lemma trimEnd_spec (s : string) :
  exists r, s = (trimEnd s ++ r)%string /\ all_space r = true /\
            ends_with_space (trimEnd s) = false /\
            (starts_with_space s = false ->
             starts_with_space (trimEnd s) = false).
Proof.
  induction s as [|c rest (r & Hr & Hsp & Hend & _)]; simpl.
  - exists EmptyString. repeat split.
  - destruct (trimEnd rest) as [|a b] eqn:Et.
    + simpl in Hr. subst r. destruct (is_space c) eqn:E.
      * exists (String c rest). simpl. rewrite E, Hsp. repeat split; auto.
      * exists rest. simpl. rewrite E. repeat split; auto.
    + exists r. simpl in *. rewrite <- Hr. repeat split; auto.
Qed.

Lemma trim_spec (p : string) : is_trim_of (trim p) p.
Proof.
  unfold is_trim_of, trim.
  destruct (trimStart_spec p) as (l & Hl & Hlsp & Hst).
  destruct (trimEnd_spec (trimStart p)) as (r & Hr & Hrsp & Hend & Hkeep).
  exists l, r. rewrite <- Hr. repeat split; auto.
Qed.

(** C8. The skills sent by the profile form are the pieces of the input
    between commas, each without its leading and trailing white space: the
    pieces joined by commas give the input back and none contains a comma,
    so there is exactly one entry per piece, one more than there are commas,
    and empty or repeated entries stay.  In particular ["go, rust, "] gives
    [["go"; "rust"; ""]]. *)
Theorem skills_split_and_trimmed :
  UserProfileForm.skills_array "go, rust, " = ["go"; "rust"; ""]%string /\
  UserProfileForm.skills_array "a,,a" = ["a"; ""; "a"]%string /\
  forall input : string,
    List.length (UserProfileForm.skills_array input)
    = S (count_char "," input) /\
    exists pieces,
      String.concat "," pieces = input /\
      Forall (fun p => count_char "," p = O) pieces /\
      UserProfileForm.skills_array input = map trim pieces /\
      Forall2 is_trim_of (UserProfileForm.skills_array input) pieces.
Proof.
  split; [reflexivity|]. split; [reflexivity|].
  intros input. unfold UserProfileForm.skills_array.
  split; [rewrite length_map; apply split_length|].
  exists (split "," input).
  split; [apply concat_split|]. split; [apply split_pieces|].
  split; [reflexivity|].
  induction (split "," input) as [|p ps IH]; simpl; constructor;
    [apply trim_spec|exact IH].
Qed.

(** *** Forms *)

(** C10, as the code has it.  A submission that passes the client-side check
    and gets an [ok] response leaves every input at its default
    ([in_progress] for the assignment status), shows the success message and
    no error.  Every other submission (an empty required input, a rejected
    fetch, a response that is not [ok]) leaves the inputs as they were, sets
    an error message and clears the success message; [loading] ends false
    either way. *)
Theorem form_submission_outcomes :
  (forall (st : AssignmentForm.State) (reply : FetchResult Json),
     let st' := fst (AssignmentForm.handleSubmit st reply) in
     (AssignmentForm.filled st = true ->
      (exists j, reply = Response true j) ->
      st' = AssignmentForm.mkState "" "" "" "in_progress" false
              (Some "Assignment created successfully!"%string) None) /\
     (AssignmentForm.filled st = false
      \/ (exists m, reply = NetworkError m)
      \/ (exists j, reply = Response false j) ->
      exists message,
        st' = AssignmentForm.mkState
                (AssignmentForm.gigId st) (AssignmentForm.assigneeId st)
                (AssignmentForm.dueDate st) (AssignmentForm.status st)
                false None (Some message))) /\
  (forall (st : UserProfileForm.State) (reply : FetchResult Json),
     let st' := fst (UserProfileForm.handleSubmit st reply) in
     (UserProfileForm.filled st = true ->
      (exists j, reply = Response true j) ->
      st' = UserProfileForm.mkState "" "" "" false
              (Some "User profile created successfully!"%string) None) /\
     (UserProfileForm.filled st = false
      \/ (exists m, reply = NetworkError m)
      \/ (exists j, reply = Response false j) ->
      exists message,
        st' = UserProfileForm.mkState
                (UserProfileForm.username st) (UserProfileForm.bio st)
                (UserProfileForm.skills st) false None (Some message))).
Proof.
  split; intros st reply st'; subst st'.
  - unfold AssignmentForm.handleSubmit, AssignmentForm.filled. simpl.
    destruct (_ || _ || _ || _); simpl.
    + split; [discriminate|]. intros _. eexists. reflexivity.
    + split.
      * intros _ [j ->]. reflexivity.
      * intros [H|[[m ->]|[j ->]]]; [discriminate H| |].
        -- eexists. reflexivity.
        -- destruct j; eexists; reflexivity.
  - unfold UserProfileForm.handleSubmit, UserProfileForm.filled. simpl.
    destruct (String.eqb _ _); simpl.
    + split; [discriminate|]. intros _. eexists. reflexivity.
    + split.
      * intros _ [j ->]. reflexivity.
      * intros [H|[[m ->]|[j ->]]]; [discriminate H| |].
        -- eexists. reflexivity.
        -- destruct j; eexists; reflexivity.
Qed.

(* ================================================================== *)
(** ** Worked instances *)
(* ================================================================== *)

(** C9 at a request that would otherwise succeed. *)
Lemma uninitialized_store_fails_fast_witness :
  db Sample.w_down = false /\
  run (create Date_parse_date_only assignmentsCollection Sample.env_ack
         Sample.body_assignment) Sample.w_down
  = (Sample.w_down, [Respond 500 db_error]) /\
  run (list_records assignmentsCollection Sample.env_ack) Sample.w_down
  = (Sample.w_down, [Respond 500 db_error]).
Proof.
  split; [reflexivity|].
  apply (uninitialized_store_fails_fast Date_parse_date_only). reflexivity.
Defined.

(** C2 at a payload without [status]. *)
Lemma missing_field_rejected_witness :
  has_key "status" Sample.body_no_status = false /\
  snd (run (create Date_parse_date_only assignmentsCollection Sample.env_ack
              Sample.body_no_status) Sample.w_empty)
  = [Respond 400 (ErrorBody "Missing required fields.")].
Proof.
  split; [reflexivity|].
  apply (missing_field_rejected Date_parse_date_only assignmentsCollection
           Sample.env_ack Sample.body_no_status Sample.w_empty "status");
    simpl; auto.
Defined.

(** C1 at a rejected write and at an acknowledged one. *)
Lemma broadcast_only_after_write_witness :
  (let t := snd (run (create Date_parse_date_only assignmentsCollection
                        Sample.env_reject Sample.body_assignment)
                   Sample.w_empty) in
   responses t = [(500, internal_error)] /\ emits t = []) /\
  (exists data id,
     In (StoreAdd usersCollection data (Some id))
        [StoreAdd usersCollection
           (new_record usersCollection Sample.env_ack Sample.body_user None)
           (Some "doc1"%string)] /\
     id = "doc1"%string).
Proof.
  split.
  - destruct (broadcast_only_after_write Date_parse_date_only
                assignmentsCollection Sample.env_reject Sample.body_assignment
                Sample.w_empty) as [Hfail _].
    destruct (Hfail (new_record assignmentsCollection Sample.env_reject
                       Sample.body_assignment (Some 1709164800000)))
      as (Hresp & Hemit & _).
    + left. reflexivity.
    + split; assumption.
  - destruct (broadcast_only_after_write Date_parse_date_only
                usersCollection Sample.env_ack Sample.body_user
                Sample.w_empty) as [_ Horder].
    destruct (Horder
                [StoreAdd usersCollection
                   (new_record usersCollection Sample.env_ack Sample.body_user
                      None) (Some "doc1"%string)]
                "new_user"%string
                (canonical_record usersCollection "doc1" Sample.body_user 0
                   1700000000000)
                [Respond 201
                   (CreatedBody "User profile created successfully" "user"
                      (canonical_record usersCollection "doc1"
                         Sample.body_user 0 1700000000000))])
      as (data & id & Hin & _ & Hid).
    + reflexivity.
    + exists data, id. split; [exact Hin|].
      simpl in Hid. injection Hid as Hid. symmetry. exact Hid.
Defined.



(** C7 as the specification words it does not hold.  The payload due
    ["soon"] has every required field truthy and a [due_date] that does
    not parse; sent to a store that acknowledges every record it can
    encode, it is answered 500 with the store unchanged.  And no payload of
    that kind, under any reading of date strings, any answer of the store
    and any contents of the collections, leaves the store changed. *)
Lemma unparseable_due_date_never_written :
  (db Sample.w_empty = true /\
   required_present assignmentsCollection Sample.body_bad_date = true /\
   field "due_date" Sample.body_bad_date = J (JStr "soon") /\
   Date_parse_date_only "soon" = None /\
   add_reply Sample.env_ack = Some "doc1"%string /\
   run (create Date_parse_date_only assignmentsCollection
          Sample.env_ack Sample.body_bad_date) Sample.w_empty
   = (Sample.w_empty,
      [StoreAdd assignmentsCollection
         (new_record assignmentsCollection Sample.env_ack
            Sample.body_bad_date None) None;
       Respond 500 internal_error])) /\
  ~ (exists (Date_parse : string -> option Z) (env : Env)
            (body : list (string * Json)) (w : World) (s : string),
       db w = true /\
       required_present assignmentsCollection body = true /\
       field "due_date" body = J (JStr s) /\
       Date_parse s = None /\
       fst (run (create Date_parse assignmentsCollection env body) w) <> w).
Proof.
  split.
  - repeat split.
  - intros (Date_parse & env & body & w & s & Hdb & Hreq & Hdue & Hparse & Hw).
    apply Hw.
    rewrite (unparseable_due_date_run Date_parse env body w s
               Hdb Hreq Hdue Hparse).
    reflexivity.
Qed.

(** C7 at the payload due ["soon"]. *)
Lemma unparseable_due_date_fails_before_write_witness :
  Date_parse_date_only "soon" = None /\
  add_reply Sample.env_ack = Some "doc1"%string /\
  let w' := fst (run (create Date_parse_date_only assignmentsCollection
                        Sample.env_ack Sample.body_bad_date) Sample.w_empty) in
  let t := snd (run (create Date_parse_date_only assignmentsCollection
                       Sample.env_ack Sample.body_bad_date) Sample.w_empty) in
  responses t = [(500, internal_error)] /\ emits t = [] /\
  assignments w' = [].
Proof.
  split; [reflexivity|]. split; [reflexivity|].
  destruct (unparseable_due_date_fails_before_write Date_parse_date_only
              Sample.env_ack Sample.body_bad_date Sample.w_empty "soon")
    as (Ht & Hemit & Hw); try reflexivity.
  cbv zeta. rewrite Ht, Hw. repeat split.
Defined.

(** C4 and C5 on the sample store. *)
Lemma broadcast_equals_list_element_witness :
  exists doc payload,
    emits (snd (run (create Date_parse_date_only assignmentsCollection
                       Sample.env_ack Sample.body_assignment) Sample.w_empty))
    = [("new_assignment"%string, payload)] /\
    item_of_doc assignmentsCollection doc = Ok payload /\
    In payload
       (match snd (run (list_records assignmentsCollection Sample.env_ack)
                     Sample.w_two) with
        | [_; Respond _ (ListBody items)] => items
        | _ => []
        end).
Proof.
  destruct (broadcast_equals_list_element Date_parse_date_only
              assignmentsCollection Sample.env_ack Sample.body_assignment
              Sample.w_empty
              (CreatedBody "Assignment added successfully" "assignment"
                 (canonical_record assignmentsCollection "doc1"
                    Sample.body_assignment 1709164800000 1700000000000)))
    as (doc & payload & Hemit & Hdoc & Hitem & Hlist).
  - simpl. right. right. left. reflexivity.
  - exists doc, payload. split; [exact Hemit|]. split; [exact Hitem|].
    vm_compute in Hdoc. injection Hdoc as Hdoc.
    apply (Hlist Sample.env_ack Sample.w_two).
    + rewrite <- Hdoc. vm_compute. left. reflexivity.
    + vm_compute. right. left. reflexivity.
Defined.

Lemma list_sorted_by_created_at_desc_witness :
  forallb (well_formed assignmentsCollection)
          (docs_of assignmentsCollection Sample.w_two) = true /\
  exists docs items,
    run (list_records assignmentsCollection Sample.env_ack) Sample.w_two
    = (Sample.w_two,
       [StoreGet assignmentsCollection true; Respond 200 (ListBody items)]) /\
    Permutation docs (docs_of assignmentsCollection Sample.w_two) /\
    StronglySorted (newest_first created_ms) docs.
Proof.
  split; [reflexivity|].
  destruct (list_sorted_by_created_at_desc assignmentsCollection
              Sample.env_ack Sample.w_two)
    as (docs & items & Hrun & Hperm & _ & Hsorted); try reflexivity.
  exists docs, items. repeat split; assumption.
Defined.

(** C10: a failed submission clears the success message of the submission
    before it, so more than the error message changes. *)
Lemma failed_submission_clears_success :
  let st := Sample.form_after_success in
  let st' := fst (AssignmentForm.handleSubmit st (NetworkError "Failed to fetch")) in
  AssignmentForm.gigId st' = AssignmentForm.gigId st /\
  AssignmentForm.assigneeId st' = AssignmentForm.assigneeId st /\
  AssignmentForm.dueDate st' = AssignmentForm.dueDate st /\
  AssignmentForm.status st' = AssignmentForm.status st /\
  AssignmentForm.error st' = Some "Failed to fetch"%string /\
  AssignmentForm.successMessage st
  = Some "Assignment created successfully!"%string /\
  AssignmentForm.successMessage st' = None /\
  AssignmentForm.successMessage st' <> AssignmentForm.successMessage st.
Proof. simpl. repeat split. discriminate. Qed.

(** C10 as amended, at a successful and at a failed submission. *)
Lemma form_submission_outcomes_witness :
  fst (AssignmentForm.handleSubmit Sample.form_after_success
         (Response true (inr JNull)))
  = AssignmentForm.mkState "" "" "" "in_progress" false
      (Some "Assignment created successfully!"%string) None /\
  exists message,
    fst (UserProfileForm.handleSubmit Sample.profile_form
           (Response false (inr (JObj [("error"%string,
                                        JStr "Internal server error.")]))))
    = UserProfileForm.mkState "ana" "" "go, rust, " false None (Some message).
Proof.
  destruct form_submission_outcomes as [Hassign Huser]. split.
  - apply (Hassign Sample.form_after_success (Response true (inr JNull)));
      [reflexivity|eexists; reflexivity].
  - apply (Huser Sample.profile_form
             (Response false (inr (JObj [("error"%string,
                                          JStr "Internal server error.")])))).
    right. right. eexists. reflexivity.
Defined.

(* ================================================================== *)
(** ** Further properties of the record service *)
(* ================================================================== *)

Section MoreServiceProperties.

Variable Date_parse : string -> option Z.


(** X2. A creation request never touches the [db] handle or the other
    collection, and it changes its own collection in one way only: by
    appending the one document whose write the store acknowledged.  Without
    an acknowledged write the world is exactly as before. *)
Theorem create_frame (c : Collection) (env : Env)
    (body : list (string * Json)) (w : World) :
  let w' := fst (run (create Date_parse c env body) w) in
  let t := snd (run (create Date_parse c env body) w) in
  db w' = db w /\
  (forall c', c' <> c -> docs_of c' w' = docs_of c' w) /\
  ((w' = w /\ forall data id, ~ In (StoreAdd c data (Some id)) t) \/
   (exists data id,
      In (StoreAdd c data (Some id)) t /\
      docs_of c w' = docs_of c w ++ [mkDoc id (to_firestore data)])).
Proof.
  intros w' t. subst w' t. rewrite create_run.
  destruct (db w) eqn:Hdb; simpl.
  2:{ rewrite Hdb. repeat split. left. split; [reflexivity|].
      intros data id [H|[]]; discriminate H. }
  destruct (required_present c body); simpl.
  2:{ rewrite Hdb. repeat split. left. split; [reflexivity|].
      intros data id [H|[]]; discriminate H. }
  destruct (due_of Date_parse c body) as [due|e]; simpl.
  2:{ rewrite Hdb. repeat split. left. split; [reflexivity|].
      intros data id [H|[]]; discriminate H. }
  destruct (add_reply env) as [id|]; simpl.
  2:{ rewrite Hdb. repeat split. left. split; [reflexivity|].
      intros data id [H|[H|[]]]; discriminate H. }
  assert (Hgrow :
    db (add_doc c (mkDoc id (to_firestore (new_record c env body due))) w) = true /\
    (forall c', c' <> c ->
       docs_of c' (add_doc c (mkDoc id (to_firestore (new_record c env body due))) w)
       = docs_of c' w) /\
    docs_of c (add_doc c (mkDoc id (to_firestore (new_record c env body due))) w)
    = docs_of c w ++ [mkDoc id (to_firestore (new_record c env body due))]).
  { destruct c; simpl; (split; [exact Hdb|]); (split; [|reflexivity]);
      intros [|] Hne; try reflexivity; exfalso; apply Hne; reflexivity. }
  destruct Hgrow as (Hdb' & Hother & Hown).
  destruct due as [d|]; simpl.
  - split; [exact Hdb'|]. split; [exact Hother|].
    right. eexists _, id. split; [left; reflexivity|exact Hown].
  - rewrite Hdb. repeat split. left. split; [reflexivity|].
    intros data id' [H|[H|[]]]; discriminate H.
Qed.

(** X3. A creation handler reads nothing of the payload but the entity's own
    fields: two payloads that agree on them are handled identically, so an
    [id] or [created_at] sent by the client has no effect. *)
Theorem create_ignores_other_fields (c : Collection) (env : Env)
    (body body' : list (string * Json)) (w : World) :
  (forall k, In k (entity_fields c) -> field k body = field k body') ->
  run (create Date_parse c env body) w = run (create Date_parse c env body') w.
Proof.
  intros Hsame. rewrite !create_run.
  destruct c; unfold required_present, due_of, new_record, canonical_record;
    simpl in Hsame.
  - rewrite <- (Hsame "gig_id"%string), <- (Hsame "assignee_id"%string),
      <- (Hsame "due_date"%string), <- (Hsame "status"%string); auto 6.
  - rewrite <- (Hsame "username"%string), <- (Hsame "bio"%string),
      <- (Hsame "skills"%string); auto 6.
Qed.

(** X4. A list request only reads: the world is unchanged, nothing is
    broadcast, nothing is written, and exactly one response is sent, either
    200 with an array or 500 with one of the two error bodies. *)
Theorem list_is_read_only (c : Collection) (env : Env) (w : World) :
  let t := snd (run (list_records c env) w) in
  fst (run (list_records c env) w) = w /\
  emits t = [] /\
  (forall c' data reply, ~ In (StoreAdd c' data reply) t) /\
  exists status rbody,
    responses t = [(status, rbody)] /\
    ((status = 200 /\ exists items, rbody = ListBody items) \/
     (status = 500 /\ (rbody = db_error \/ rbody = internal_error))).
Proof.
  intros t. subst t. rewrite list_run.
  destruct (db w); simpl.
  2:{ repeat split; [intros c' data reply [H|[]]; discriminate H|].
      eexists _, _. split; [reflexivity|]. right. auto. }
  destruct (get_reply env); simpl.
  2:{ repeat split; [intros c' data reply [H|[H|[]]]; discriminate H|].
      eexists _, _. split; [reflexivity|]. right. auto. }
  destruct (mapM _ _) as [items|e]; simpl;
    (repeat split; [intros c' data reply [H|[H|[]]]; discriminate H|]);
    eexists _, _; (split; [reflexivity|]).
  - left. split; [reflexivity|]. exists items. reflexivity.
  - right. auto.
Qed.

Lemma mapM_throws {A B} (f : A -> Res B) (l : list A) (x : A) (e : Exn) :
  In x l -> f x = Throw e -> exists e', mapM f l = Throw e'.
Proof.
  induction l as [|a rest IH]; simpl; [contradiction|].
  intros [<-|Hin] Hx.
  - rewrite Hx. simpl. exists e. reflexivity.
  - destruct (f a) as [b|ea]; simpl; [|exists ea; reflexivity].
    destruct (IH Hin Hx) as [e' ->]. simpl. exists e'. reflexivity.
Qed.

(** X5. A listing is all or nothing.  With the store client initialised and
    the read succeeding, one stored document that carries [created_at] but
    cannot be rendered (a missing or non-timestamp [due_date], say) turns
    the whole answer into 500 "Internal server error.": no partial array is
    sent for the documents that could be rendered. *)
Theorem list_fails_on_one_bad_document (c : Collection) (env : Env)
    (w : World) (doc : Doc) (e : Exn) :
  db w = true ->
  get_reply env = true ->
  In doc (docs_of c w) ->
  has_key "created_at" (doc_data doc) = true ->
  item_of_doc c doc = Throw e ->
  run (list_records c env) w
  = (w, [StoreGet c true; Respond 500 internal_error]).
Proof.
  intros Hdb Hget Hin Hkey Hbad. rewrite list_run, Hdb, Hget. simpl.
  destruct (mapM_throws (item_of_doc c) _ doc e (orderBy_In _ _ Hin Hkey) Hbad)
    as [e' ->].
  reflexivity.
Qed.

(** X6. The [db] handle is never assigned after startup, so a failed
    initialisation is for good: over any run of requests from a world without
    a store client, every request is answered 500 "Database not
    initialized." and that is all that happens. *)
Theorem uninitialized_store_fails_every_request
    (requests : list (Env * Incoming)) (w : World) :
  db w = false ->
  serve Date_parse w requests
  = (w, map (fun _ => Respond 500 db_error) requests).
Proof.
  intros Hdb. induction requests as [|[env r] rest IH]; [reflexivity|].
  cbn [serve map].
  assert (Hstep : run (handle Date_parse env r) w = (w, [Respond 500 db_error])).
  { destruct r as [c body|c]; simpl handle.
    - rewrite create_run, Hdb. reflexivity.
    - rewrite list_run, Hdb. reflexivity. }
  rewrite Hstep. simpl. rewrite IH. reflexivity.
Qed.

Lemma handle_keeps_db (env : Env) (r : Incoming) (w : World) :
  db (fst (run (handle Date_parse env r) w)) = db w.
Proof.
  destruct w as [dbw asg usr].
  destruct r as [c body|c]; cbn [handle].
  - rewrite create_run. simpl.
    destruct dbw; simpl; [|reflexivity].
    destruct (required_present c body); simpl; [|reflexivity].
    destruct (due_of Date_parse c body) as [due|e]; simpl; [|reflexivity].
    destruct (add_reply env) as [id|]; simpl; [|reflexivity].
    destruct due, c; reflexivity.
  - rewrite list_run. simpl.
    destruct dbw; simpl; [|reflexivity].
    destruct (get_reply env); simpl; [|reflexivity].
    destruct (mapM _ _); reflexivity.
Qed.

Lemma handle_grows (c : Collection) (env : Env) (r : Incoming) (w : World) :
  exists added,
    docs_of c (fst (run (handle Date_parse env r) w)) = docs_of c w ++ added /\
    (List.length added <= posts_to c [(env, r)])%nat /\
    (List.length (emitted_on (topic c) (snd (run (handle Date_parse env r) w)))
     <= List.length added)%nat.
Proof.
  assert (Hnone : forall t, emits t = [] ->
            exists added,
              docs_of c (fst (w, t)) = docs_of c w ++ added /\
              (List.length added <= posts_to c [(env, r)])%nat /\
              (List.length (emitted_on (topic c) (snd (w, t)))
               <= List.length added)%nat).
  { intros t Ht. exists []. rewrite app_nil_r.
    unfold emitted_on. simpl. rewrite Ht.
    repeat split; apply Nat.le_0_l. }
  destruct r as [c' body|c']; cbn [handle].
  - rewrite create_run.
    destruct (negb (db w)); [apply Hnone; reflexivity|].
    destruct (negb (required_present c' body)); [apply Hnone; reflexivity|].
    destruct (due_of Date_parse c' body) as [due|e];
      [|apply Hnone; reflexivity].
    destruct (add_reply env) as [id|]; [|apply Hnone; reflexivity].
    destruct due as [d|]; destruct c, c'; unfold emitted_on; simpl;
      first [ exists []; rewrite app_nil_r; simpl; repeat split; lia
            | eexists [_]; simpl; repeat split; lia ].
  - rewrite list_run.
    destruct (negb (db w)); [apply Hnone; reflexivity|].
    destruct (get_reply env); [|apply Hnone; reflexivity].
    destruct (mapM _ _); apply Hnone; reflexivity.
Qed.

Lemma emitted_on_app (tp : string) (t1 t2 : list Effect) :
  emitted_on tp (t1 ++ t2) = emitted_on tp t1 ++ emitted_on tp t2.
Proof.
  unfold emitted_on. rewrite emits_app, filter_app, map_app. reflexivity.
Qed.

(** X7. The service only appends.  Over any run of requests the [db] handle
    stays as it was and each collection ends as it began followed by the
    documents added, so no stored record is ever changed, moved or removed;
    at most one document is added per request posted to the collection, and
    at least one for every payload broadcast on the collection's topic. *)
Theorem serve_append_only (requests : list (Env * Incoming)) (w : World)
    (c : Collection) :
  db (fst (serve Date_parse w requests)) = db w /\
  exists added,
    docs_of c (fst (serve Date_parse w requests)) = docs_of c w ++ added /\
    (List.length added <= posts_to c requests)%nat /\
    (List.length (emitted_on (topic c) (snd (serve Date_parse w requests)))
     <= List.length added)%nat.
Proof.
  revert w. induction requests as [|[env r] rest IH]; intros w.
  - simpl. split; [reflexivity|]. exists []. rewrite app_nil_r.
    repeat split; simpl; lia.
  - cbn [serve fst snd].
    pose proof (handle_keeps_db env r w) as Hdb1.
    destruct (handle_grows c env r w) as (a1 & Ha1 & Hn1 & He1).
    destruct (IH (fst (run (handle Date_parse env r) w)))
      as (Hdb2 & a2 & Ha2 & Hn2 & He2).
    split; [rewrite Hdb2; exact Hdb1|].
    exists (a1 ++ a2). rewrite Ha2, Ha1, <- app_assoc.
    split; [reflexivity|].
    rewrite emitted_on_app, !length_app.
    assert (Hposts : posts_to c ((env, r) :: rest)
                     = (posts_to c [(env, r)] + posts_to c rest)%nat).
    { simpl. destruct r as [c' body|c']; [destruct c, c'|]; simpl; lia. }
    rewrite Hposts. split; lia.
Qed.

(** X8. An assignment whose [due_date] is an object carrying a [toString]
    property is answered 500 without any call on the store: converting it
    to a Date throws before [add] is reached, unlike an unparseable string,
    with which [add] is called and throws. *)
Theorem unconvertible_due_date_not_written (env : Env)
    (body : list (string * Json)) (w : World) (fs : list (string * Json)) :
  db w = true ->
  required_present assignmentsCollection body = true ->
  field "due_date" body = J (JObj fs) ->
  has_key "toString" fs = true ->
  run (create Date_parse assignmentsCollection env body) w
  = (w, [Respond 500 internal_error]).
Proof.
  intros Hdb Hreq Hdue Hkey. rewrite create_run, Hdb, Hreq. simpl.
  rewrite Hdue. simpl. rewrite Hkey. reflexivity.
Qed.

End MoreServiceProperties.

(** *** Collection paths *)

Lemma string_length_append (a b : string) :
  String.length (a ++ b)%string = (String.length a + String.length b)%nat.
Proof. induction a as [|ch a IH]; simpl; [reflexivity|rewrite IH; reflexivity]. Qed.

(** Two ways of cutting one string in two: one first part extends the
    other. *)
Lemma append_overlap (a b s1 s2 : string) :
  (a ++ s1 = b ++ s2)%string ->
  exists x, (b = a ++ x /\ s1 = x ++ s2)%string
            \/ (a = b ++ x /\ s2 = x ++ s1)%string.
Proof.
  revert b. induction a as [|ch a IH]; intros b H; simpl in H.
  - exists b. left. split; [reflexivity|exact H].
  - destruct b as [|ch' b]; simpl in H.
    + exists (String ch a). right. split; [reflexivity|symmetry; exact H].
    + injection H as <- H. destruct (IH b H) as [x [[-> ->]|[-> ->]]];
        exists x; [left|right]; split; reflexivity.
Qed.

Lemma append_same_suffix (a b s : string) :
  (a ++ s = b ++ s)%string -> a = b.
Proof.
  intros H. destruct (append_overlap a b s s H) as [x [[-> Hx]|[-> Hx]]];
    apply (f_equal String.length) in Hx; rewrite string_length_append in Hx;
    (destruct x as [|ch x]; simpl in Hx; [|lia]).
  - clear. induction a as [|ch a IH]; simpl; [reflexivity|].
    rewrite <- IH. reflexivity.
  - clear. induction b as [|ch b IH]; simpl; [reflexivity|].
    rewrite IH. reflexivity.
Qed.

Ltac consume_prefix x H :=
  repeat (destruct x as [|? x]; simpl in H;
          [discriminate H|injection H as _ H]);
  try (destruct x; discriminate H).

(** X9. The store path of a collection determines both the application id
    and the collection: the assignments and the users of one application
    never share a path, and neither do the collections of two applications,
    whatever the application ids are. *)
Theorem collection_path_injective (a b : string) (c c' : Collection) :
  collection_path a c = collection_path b c' -> a = b /\ c = c'.
Proof.
  unfold collection_path. simpl. intros H.
  injection H as H.
  destruct c, c'; simpl in H.
  - split; [|reflexivity]. exact (append_same_suffix _ _ _ H).
  - exfalso. destruct (append_overlap _ _ _ _ H) as [x [[_ Hx]|[_ Hx]]];
      consume_prefix x Hx.
  - exfalso. destruct (append_overlap _ _ _ _ H) as [x [[_ Hx]|[_ Hx]]];
      consume_prefix x Hx.
  - split; [|reflexivity]. exact (append_same_suffix _ _ _ H).
Qed.

(* ================================================================== *)
(** ** Further properties of the forms *)
(* ================================================================== *)

Lemma assignment_filled (st : AssignmentForm.State) :
  AssignmentForm.filled st = true ->
  AssignmentForm.is_empty (AssignmentForm.gigId st)
  || AssignmentForm.is_empty (AssignmentForm.assigneeId st)
  || AssignmentForm.is_empty (AssignmentForm.dueDate st)
  || AssignmentForm.is_empty (AssignmentForm.status st) = false.
Proof. unfold AssignmentForm.filled. apply negb_true_iff. Qed.

Lemma profile_filled (st : UserProfileForm.State) :
  UserProfileForm.filled st = true ->
  String.eqb (UserProfileForm.username st) "" = false.
Proof. unfold UserProfileForm.filled. apply negb_true_iff. Qed.

(** X11. While a submission that passed the client-side check is in flight,
    the form shows neither message, its button is disabled and reads
    "Adding..." ("Creating..." on the profile form), the inputs are as typed
    and exactly one POST has been issued; the whole of [handleSubmit] is
    that first half followed by the reaction to the way [fetch] settles. *)
Theorem form_in_flight :
  (forall (st : AssignmentForm.State) (reply : FetchResult Json),
     AssignmentForm.filled st = true ->
     let flying := fst (AssignmentForm.begin_submit st) in
     AssignmentForm.render flying = mkFormView None None "Adding..." true /\
     flying = AssignmentForm.mkState
                (AssignmentForm.gigId st) (AssignmentForm.assigneeId st)
                (AssignmentForm.dueDate st) (AssignmentForm.status st)
                true None None /\
     snd (AssignmentForm.begin_submit st)
     = [mkRequest "/api/assignments" "POST"
          (Some (JObj (AssignmentForm.request_fields st)))] /\
     AssignmentForm.handleSubmit st reply
     = (AssignmentForm.settle_submit flying reply,
        snd (AssignmentForm.begin_submit st))) /\
  (forall (st : UserProfileForm.State) (reply : FetchResult Json),
     UserProfileForm.filled st = true ->
     let flying := fst (UserProfileForm.begin_submit st) in
     UserProfileForm.render flying = mkFormView None None "Creating..." true /\
     flying = UserProfileForm.mkState
                (UserProfileForm.username st) (UserProfileForm.bio st)
                (UserProfileForm.skills st) true None None /\
     snd (UserProfileForm.begin_submit st)
     = [mkRequest "/api/users" "POST"
          (Some (JObj (UserProfileForm.request_fields st)))] /\
     UserProfileForm.handleSubmit st reply
     = (UserProfileForm.settle_submit flying reply,
        snd (UserProfileForm.begin_submit st))).
Proof.
  split; intros st reply Hfilled flying; subst flying.
  - apply assignment_filled in Hfilled.
    unfold AssignmentForm.begin_submit, AssignmentForm.handleSubmit. simpl.
    rewrite Hfilled. simpl. repeat split.
  - apply profile_filled in Hfilled.
    unfold UserProfileForm.begin_submit, UserProfileForm.handleSubmit. simpl.
    rewrite Hfilled. simpl. repeat split.
Qed.

(** The state a form is left in by [handleSubmit]. *)
Lemma assignment_submit_state (st : AssignmentForm.State)
    (reply : FetchResult Json) :
  fst (AssignmentForm.handleSubmit st reply)
  = if AssignmentForm.filled st then
      match submit_outcome reply "Failed to add assignment." with
      | None =>
          AssignmentForm.mkState "" "" "" "in_progress" false
            (Some "Assignment created successfully!"%string) None
      | Some message =>
          AssignmentForm.mkState
            (AssignmentForm.gigId st) (AssignmentForm.assigneeId st)
            (AssignmentForm.dueDate st) (AssignmentForm.status st)
            false None (Some message)
      end
    else
      AssignmentForm.mkState
        (AssignmentForm.gigId st) (AssignmentForm.assigneeId st)
        (AssignmentForm.dueDate st) (AssignmentForm.status st)
        false None (Some "Please fill in all fields."%string).
Proof.
  unfold AssignmentForm.handleSubmit, AssignmentForm.filled. simpl.
  destruct (_ || _ || _ || _); simpl; [reflexivity|].
  destruct (submit_outcome reply _); reflexivity.
Qed.

Lemma profile_submit_state (st : UserProfileForm.State)
    (reply : FetchResult Json) :
  fst (UserProfileForm.handleSubmit st reply)
  = if UserProfileForm.filled st then
      match submit_outcome reply "Failed to create user profile." with
      | None =>
          UserProfileForm.mkState "" "" "" false
            (Some "User profile created successfully!"%string) None
      | Some message =>
          UserProfileForm.mkState
            (UserProfileForm.username st) (UserProfileForm.bio st)
            (UserProfileForm.skills st) false None (Some message)
      end
    else
      UserProfileForm.mkState
        (UserProfileForm.username st) (UserProfileForm.bio st)
        (UserProfileForm.skills st) false None
        (Some "Username is required."%string).
Proof.
  unfold UserProfileForm.handleSubmit, UserProfileForm.filled. simpl.
  destruct (String.eqb _ _); simpl; [reflexivity|].
  destruct (submit_outcome reply _); reflexivity.
Qed.

(** The [try] block runs to its end exactly on an [ok] response. *)
Lemma submit_outcome_none (reply : FetchResult Json) (fallback : string) :
  submit_outcome reply fallback = None <-> exists j, reply = Response true j.
Proof.
  destruct reply as [m|[|] [m|j]]; simpl; split;
    try discriminate; try (intros [j' H]; discriminate H);
    intros _; eexists; reflexivity.
Qed.

(** X12. Whatever the form showed before and however the submission went,
    once [handleSubmit] has finished the button is enabled again with its
    idle label and the form never shows both messages: the success message
    exactly when the check passed and the response was [ok], otherwise at
    most the error message. *)
Theorem form_view_after_submission :
  (forall (st : AssignmentForm.State) (reply : FetchResult Json),
     let v := AssignmentForm.render (fst (AssignmentForm.handleSubmit st reply)) in
     button_disabled v = false /\ button_label v = "Add Assignment"%string /\
     (shown_error v = None \/ shown_success v = None) /\
     (shown_success v <> None <->
      AssignmentForm.filled st = true /\ exists j, reply = Response true j)) /\
  (forall (st : UserProfileForm.State) (reply : FetchResult Json),
     let v := UserProfileForm.render (fst (UserProfileForm.handleSubmit st reply)) in
     button_disabled v = false /\ button_label v = "Create Profile"%string /\
     (shown_error v = None \/ shown_success v = None) /\
     (shown_success v <> None <->
      UserProfileForm.filled st = true /\ exists j, reply = Response true j)).
Proof.
  split; intros st reply v; subst v.
  - rewrite assignment_submit_state.
    destruct (AssignmentForm.filled st).
    + destruct (submit_outcome reply _) as [m|] eqn:E.
      * split; [reflexivity|]. split; [reflexivity|].
        split; [right; reflexivity|]. split.
        -- intros H. exfalso. apply H. reflexivity.
        -- intros [_ [j ->]]. discriminate E.
      * split; [reflexivity|]. split; [reflexivity|].
        split; [left; reflexivity|]. split.
        -- intros _. split; [reflexivity|]. apply submit_outcome_none in E.
           exact E.
        -- intros _. discriminate.
    + split; [reflexivity|]. split; [reflexivity|].
      split; [right; reflexivity|]. split.
      * intros H. exfalso. apply H. reflexivity.
      * intros [H _]. discriminate H.
  - rewrite profile_submit_state.
    destruct (UserProfileForm.filled st).
    + destruct (submit_outcome reply _) as [m|] eqn:E.
      * split; [reflexivity|]. split; [reflexivity|].
        split; [right; reflexivity|]. split.
        -- intros H. exfalso. apply H. reflexivity.
        -- intros [_ [j ->]]. discriminate E.
      * split; [reflexivity|]. split; [reflexivity|].
        split; [left; reflexivity|]. split.
        -- intros _. split; [reflexivity|]. apply submit_outcome_none in E.
           exact E.
        -- intros _. discriminate.
    + split; [reflexivity|]. split; [reflexivity|].
      split; [right; reflexivity|]. split.
      * intros H. exfalso. apply H. reflexivity.
      * intros [H _]. discriminate H.
Qed.

(** The requests [handleSubmit] issues. *)
Lemma assignment_submit_requests (st : AssignmentForm.State)
    (reply : FetchResult Json) :
  snd (AssignmentForm.handleSubmit st reply)
  = if AssignmentForm.filled st then
      [mkRequest "/api/assignments" "POST"
         (Some (JObj (AssignmentForm.request_fields st)))]
    else [].
Proof.
  unfold AssignmentForm.handleSubmit, AssignmentForm.filled. simpl.
  destruct (_ || _ || _ || _); reflexivity.
Qed.

Lemma profile_submit_requests (st : UserProfileForm.State)
    (reply : FetchResult Json) :
  snd (UserProfileForm.handleSubmit st reply)
  = if UserProfileForm.filled st then
      [mkRequest "/api/users" "POST"
         (Some (JObj (UserProfileForm.request_fields st)))]
    else [].
Proof.
  unfold UserProfileForm.handleSubmit, UserProfileForm.filled. simpl.
  destruct (String.eqb _ _); reflexivity.
Qed.

(** X13. Submitting again straight after a submission has finished: after a
    success the inputs were reset, so the client-side check refuses the
    second submission and nothing is sent (no duplicate record); after a
    failure the inputs were kept, so the second submission sends the very
    same request as the first. *)
Theorem resubmission :
  (forall (st : AssignmentForm.State) (reply reply' : FetchResult Json),
     AssignmentForm.filled st = true ->
     let first := AssignmentForm.handleSubmit st reply in
     let second := AssignmentForm.handleSubmit (fst first) reply' in
     ((exists j, reply = Response true j) ->
      snd second = [] /\
      AssignmentForm.error (fst second)
      = Some "Please fill in all fields."%string) /\
     ((forall j, reply <> Response true j) ->
      snd second = snd first /\ snd second <> [])) /\
  (forall (st : UserProfileForm.State) (reply reply' : FetchResult Json),
     UserProfileForm.filled st = true ->
     let first := UserProfileForm.handleSubmit st reply in
     let second := UserProfileForm.handleSubmit (fst first) reply' in
     ((exists j, reply = Response true j) ->
      snd second = [] /\
      UserProfileForm.error (fst second)
      = Some "Username is required."%string) /\
     ((forall j, reply <> Response true j) ->
      snd second = snd first /\ snd second <> [])).
Proof.
  split; intros st reply reply' Hfilled first second; subst first second.
  - rewrite !assignment_submit_requests, !assignment_submit_state, Hfilled.
    split.
    + intros [j ->]. simpl. split; reflexivity.
    + intros Hfail.
      destruct (submit_outcome reply _) as [m|] eqn:E.
      * change (AssignmentForm.filled (AssignmentForm.mkState
                  (AssignmentForm.gigId st) (AssignmentForm.assigneeId st)
                  (AssignmentForm.dueDate st) (AssignmentForm.status st)
                  false None (Some m)))
          with (AssignmentForm.filled st).
        rewrite Hfilled. split; [reflexivity|discriminate].
      * apply submit_outcome_none in E. destruct E as [j E].
        exfalso. exact (Hfail j E).
  - rewrite !profile_submit_requests, !profile_submit_state, Hfilled.
    split.
    + intros [j ->]. simpl. split; reflexivity.
    + intros Hfail.
      destruct (submit_outcome reply _) as [m|] eqn:E.
      * change (UserProfileForm.filled (UserProfileForm.mkState
                  (UserProfileForm.username st) (UserProfileForm.bio st)
                  (UserProfileForm.skills st) false None (Some m)))
          with (UserProfileForm.filled st).
        rewrite Hfilled. split; [reflexivity|discriminate].
      * apply submit_outcome_none in E. destruct E as [j E].
        exfalso. exact (Hfail j E).
Qed.


(** The text thrown for a response that is not [ok], by the shape of its
    body. *)
Lemma submit_outcome_text (errorData : Json) (fallback : string) :
  (forall e, json_field "error" errorData = Some (JStr e) ->
             String.eqb e "" = false ->
             submit_outcome (Response false (inr errorData)) fallback = Some e) /\
  (errorData <> JNull ->
   json_field "error" errorData = None
   \/ (exists j, json_field "error" errorData = Some j /\ json_truthy j = false) ->
   submit_outcome (Response false (inr errorData)) fallback = Some fallback).
Proof.
  split.
  - intros e He Hne. simpl. unfold thrown_message.
    destruct errorData; try discriminate He.
    rewrite He. simpl. rewrite Hne. reflexivity.
  - intros Hnull Hfield. simpl. unfold thrown_message.
    destruct errorData; try (exfalso; apply Hnull; reflexivity);
      try reflexivity.
    destruct Hfield as [->|(j & -> & ->)]; reflexivity.
Qed.

(** X20. Which error text a form shows after a response that is not [ok]:
    the [error] entry of the response body when that is a non-empty string;
    the form's own fallback text when the body is valid JSON other than
    [null] without an [error] entry, or with a falsy one; and, when the body
    is not valid JSON, the message of the parse error. *)
Theorem form_error_text :
  (forall (st : AssignmentForm.State) (errorData : Json) (e m : string),
     AssignmentForm.filled st = true ->
     (json_field "error" errorData = Some (JStr e) ->
      String.eqb e "" = false ->
      AssignmentForm.error
        (fst (AssignmentForm.handleSubmit st (Response false (inr errorData))))
      = Some e) /\
     (errorData <> JNull ->
      json_field "error" errorData = None
      \/ (exists j, json_field "error" errorData = Some j
                    /\ json_truthy j = false) ->
      AssignmentForm.error
        (fst (AssignmentForm.handleSubmit st (Response false (inr errorData))))
      = Some "Failed to add assignment."%string) /\
     AssignmentForm.error
       (fst (AssignmentForm.handleSubmit st (Response false (inl m))))
     = Some m) /\
  (forall (st : UserProfileForm.State) (errorData : Json) (e m : string),
     UserProfileForm.filled st = true ->
     (json_field "error" errorData = Some (JStr e) ->
      String.eqb e "" = false ->
      UserProfileForm.error
        (fst (UserProfileForm.handleSubmit st (Response false (inr errorData))))
      = Some e) /\
     (errorData <> JNull ->
      json_field "error" errorData = None
      \/ (exists j, json_field "error" errorData = Some j
                    /\ json_truthy j = false) ->
      UserProfileForm.error
        (fst (UserProfileForm.handleSubmit st (Response false (inr errorData))))
      = Some "Failed to create user profile."%string) /\
     UserProfileForm.error
       (fst (UserProfileForm.handleSubmit st (Response false (inl m))))
     = Some m).
Proof.
  split; intros st errorData e m Hfilled.
  - rewrite !assignment_submit_state, Hfilled.
    destruct (submit_outcome_text errorData "Failed to add assignment.")
      as [Htext Hfallback].
    split; [|split].
    + intros He Hne. rewrite (Htext e He Hne). reflexivity.
    + intros Hnull Hfield. rewrite (Hfallback Hnull Hfield). reflexivity.
    + reflexivity.
  - rewrite !profile_submit_state, Hfilled.
    destruct (submit_outcome_text errorData "Failed to create user profile.")
      as [Htext Hfallback].
    split; [|split].
    + intros He Hne. rewrite (Htext e He Hne). reflexivity.
    + intros Hnull Hfield. rewrite (Hfallback Hnull Hfield). reflexivity.
    + reflexivity.
Qed.

(* ================================================================== *)
(** ** The forms against the record service *)
(* ================================================================== *)

Section FormsAgainstService.

Variable Date_parse : string -> option Z.

(** Every response of a creation handler is a 201 with a created record or a
    400 or 500 with a non-empty error text. *)
Lemma create_response_shape (c : Collection) (env : Env)
    (body : list (string * Json)) (w : World) (status : Z) (rbody : Body) :
  responses (snd (run (create Date_parse c env body) w)) = [(status, rbody)] ->
  (status = 201 /\ exists m k r, rbody = CreatedBody m k r) \/
  (exists e, rbody = ErrorBody e /\ String.eqb e "" = false /\
             (status = 400 \/ status = 500)).
Proof.
  rewrite create_run.
  destruct (db w); simpl;
    [|intros H; injection H as <- <-; right; eexists; repeat split; auto].
  destruct (required_present c body); simpl;
    [|intros H; injection H as <- <-; right; eexists; repeat split; auto;
      destruct c; reflexivity].
  destruct (due_of Date_parse c body) as [due|e]; simpl;
    [|intros H; injection H as <- <-; right; eexists; repeat split; auto].
  destruct (add_reply env) as [id|]; simpl;
    [|intros H; injection H as <- <-; right; eexists; repeat split; auto].
  destruct due as [d|]; simpl; intros H; injection H as <- <-.
  - left. split; [reflexivity|]. eexists _, _, _. reflexivity.
  - right. eexists. repeat split; auto.
Qed.

(** What the [try] block of a form makes of the server's response. *)
Lemma submit_outcome_of_response (status : Z) (rbody : Body)
    (reply : FetchResult Json) (fallback : string) :
  settles_as status rbody reply ->
  (status = 201 /\ (exists m k r, rbody = CreatedBody m k r) /\
   submit_outcome reply fallback = None) \/
  (exists e, rbody = ErrorBody e /\ String.eqb e "" = false /\
             (status = 400 \/ status = 500)) ->
  (status = 201 /\ submit_outcome reply fallback = None) \/
  (exists e, rbody = ErrorBody e /\ status <> 201 /\
             submit_outcome reply fallback = Some e).
Proof.
  intros Hwire [(-> & _ & Hnone)|(e & -> & He & Hstatus)].
  - left. split; [reflexivity|exact Hnone].
  - right. exists e. split; [reflexivity|].
    simpl in Hwire. subst reply.
    destruct Hstatus as [->| ->]; (split; [discriminate|]); simpl;
      rewrite He; reflexivity.
Qed.

Lemma form_reaction (c : Collection) (env : Env)
    (body : list (string * Json)) (w : World) (status : Z) (rbody : Body)
    (reply : FetchResult Json) (fallback : string) :
  responses (snd (run (create Date_parse c env body) w)) = [(status, rbody)] ->
  settles_as status rbody reply ->
  (status = 201 /\ submit_outcome reply fallback = None) \/
  (exists e, rbody = ErrorBody e /\ status <> 201 /\
             submit_outcome reply fallback = Some e).
Proof.
  intros Hresp Hwire.
  apply (submit_outcome_of_response status rbody reply fallback Hwire).
  destruct (create_response_shape c env body w status rbody Hresp)
    as [(-> & m & k & r & ->)|H]; [left|right; exact H].
  split; [reflexivity|]. split; [eexists _, _, _; reflexivity|].
  simpl in Hwire. destruct Hwire as [j ->]. reflexivity.
Qed.

(** X15. A form against the server.  When a form that passes the
    client-side check has its request handled by the creation handler and
    the response reaches it, the form ends in success (inputs reset, success
    message) exactly when the server answered 201; on a 400 or 500 it keeps
    its inputs and shows the very error text the server put in the response
    body, never the generic fallback. *)
Theorem form_against_server :
  (forall (st : AssignmentForm.State) (env : Env) (w : World) (status : Z)
          (rbody : Body) (reply : FetchResult Json),
     AssignmentForm.filled st = true ->
     responses (snd (run (create Date_parse assignmentsCollection env
                            (AssignmentForm.request_fields st)) w))
     = [(status, rbody)] ->
     settles_as status rbody reply ->
     (status = 201 /\
      fst (AssignmentForm.handleSubmit st reply)
      = AssignmentForm.mkState "" "" "" "in_progress" false
          (Some "Assignment created successfully!"%string) None) \/
     (exists e, rbody = ErrorBody e /\ status <> 201 /\
        fst (AssignmentForm.handleSubmit st reply)
        = AssignmentForm.mkState
            (AssignmentForm.gigId st) (AssignmentForm.assigneeId st)
            (AssignmentForm.dueDate st) (AssignmentForm.status st)
            false None (Some e))) /\
  (forall (st : UserProfileForm.State) (env : Env) (w : World) (status : Z)
          (rbody : Body) (reply : FetchResult Json),
     UserProfileForm.filled st = true ->
     responses (snd (run (create Date_parse usersCollection env
                            (UserProfileForm.request_fields st)) w))
     = [(status, rbody)] ->
     settles_as status rbody reply ->
     (status = 201 /\
      fst (UserProfileForm.handleSubmit st reply)
      = UserProfileForm.mkState "" "" "" false
          (Some "User profile created successfully!"%string) None) \/
     (exists e, rbody = ErrorBody e /\ status <> 201 /\
        fst (UserProfileForm.handleSubmit st reply)
        = UserProfileForm.mkState
            (UserProfileForm.username st) (UserProfileForm.bio st)
            (UserProfileForm.skills st) false None (Some e))).
Proof.
  split; intros st env w status rbody reply Hfilled Hresp Hwire.
  - rewrite assignment_submit_state, Hfilled.
    destruct (form_reaction _ _ _ _ _ _ reply "Failed to add assignment."
                Hresp Hwire) as [[-> ->]|(e & -> & Hne & ->)].
    + left. split; reflexivity.
    + right. exists e. repeat split. exact Hne.
  - rewrite profile_submit_state, Hfilled.
    destruct (form_reaction _ _ _ _ _ _ reply "Failed to create user profile."
                Hresp Hwire) as [[-> ->]|(e & -> & Hne & ->)].
    + left. split; reflexivity.
    + right. exists e. repeat split. exact Hne.
Qed.

(** X16. The profile form's check implies the server's.  A profile form with
    a non-empty username always sends a body the server accepts: with the
    store client initialised and the write acknowledged with [id], the
    record stored, broadcast and returned carries the username and the bio
    exactly as typed (an empty bio included) and the skills exactly as the
    form derived them. *)
Theorem profile_form_accepted (st : UserProfileForm.State) (env : Env)
    (w : World) (id : string) :
  UserProfileForm.filled st = true ->
  db w = true ->
  add_reply env = Some id ->
  let record : Object :=
    [("id", J (JStr id));
     ("username", J (JStr (UserProfileForm.username st)));
     ("bio", J (JStr (UserProfileForm.bio st)));
     ("skills",
      J (JArr (map JStr (UserProfileForm.skills_array
                           (UserProfileForm.skills st)))));
     ("created_at", J (JStr (iso_of_time (now env))))]%string in
  snd (run (create Date_parse usersCollection env
              (UserProfileForm.request_fields st)) w)
  = [StoreAdd usersCollection
       (new_record usersCollection env (UserProfileForm.request_fields st)
          (Some 0))
       (Some id);
     Emit "new_user" record;
     Respond 201 (CreatedBody "User profile created successfully" "user" record)].
Proof.
  intros Hfilled Hdb Hadd record. subst record.
  apply profile_filled in Hfilled.
  rewrite create_run, Hdb, Hadd.
  unfold required_present, due_of, canonical_record, new_record,
    UserProfileForm.request_fields, or_else.
  simpl. rewrite Hfilled. simpl.
  destruct (String.eqb (UserProfileForm.bio st) "") eqn:Hbio; simpl;
    [|reflexivity].
  apply String.eqb_eq in Hbio. rewrite Hbio. reflexivity.
Qed.

End FormsAgainstService.

(* ================================================================== *)
(** ** Further properties of the list components *)
(* ================================================================== *)

Lemma assignments_after_app (st : AssignmentsList.State)
    (e1 e2 : list (Event AssignmentsList.Assignment)) :
  AssignmentsList.after st (e1 ++ e2)
  = AssignmentsList.after (AssignmentsList.after st e1) e2.
Proof. unfold AssignmentsList.after. apply fold_left_app. Qed.

Lemma users_after_app (st : UserProfilesList.State)
    (e1 e2 : list (Event UserProfilesList.UserProfile)) :
  UserProfilesList.after st (e1 ++ e2)
  = UserProfilesList.after (UserProfilesList.after st e1) e2.
Proof. unfold UserProfilesList.after. apply fold_left_app. Qed.

(** Only the settling of the fetch touches [loading] and [error]. *)
Lemma assignments_after_keeps (events : list (Event AssignmentsList.Assignment))
    (st : AssignmentsList.State) :
  forallb not_settled events = true ->
  AssignmentsList.loading (AssignmentsList.after st events)
  = AssignmentsList.loading st /\
  AssignmentsList.error (AssignmentsList.after st events)
  = AssignmentsList.error st.
Proof.
  revert st. induction events as [|e rest IH]; intros st H;
    [split; reflexivity|].
  simpl in H. apply andb_true_iff in H. destruct H as [He Hrest].
  change (AssignmentsList.after st (e :: rest))
    with (AssignmentsList.after (fst (AssignmentsList.step st e)) rest).
  destruct (IH (fst (AssignmentsList.step st e)) Hrest) as [Hl Herr].
  rewrite Hl, Herr.
  destruct e as [|reply|r|]; try discriminate He; split; reflexivity.
Qed.

Lemma users_after_keeps (events : list (Event UserProfilesList.UserProfile))
    (st : UserProfilesList.State) :
  forallb not_settled events = true ->
  UserProfilesList.loading (UserProfilesList.after st events)
  = UserProfilesList.loading st /\
  UserProfilesList.error (UserProfilesList.after st events)
  = UserProfilesList.error st.
Proof.
  revert st. induction events as [|e rest IH]; intros st H;
    [split; reflexivity|].
  simpl in H. apply andb_true_iff in H. destruct H as [He Hrest].
  change (UserProfilesList.after st (e :: rest))
    with (UserProfilesList.after (fst (UserProfilesList.step st e)) rest).
  destruct (IH (fst (UserProfilesList.step st e)) Hrest) as [Hl Herr].
  rewrite Hl, Herr.
  destruct e as [|reply|r|]; try discriminate He; split; reflexivity.
Qed.

Lemma assignments_after_broadcasts (rs : list AssignmentsList.Assignment)
    (st : AssignmentsList.State) :
  AssignmentsList.after st (map Broadcast rs)
  = AssignmentsList.mkState (rev rs ++ AssignmentsList.assignments st)
      (AssignmentsList.loading st) (AssignmentsList.error st).
Proof.
  revert st. induction rs as [|r rest IH]; intros st.
  - destruct st; reflexivity.
  - unfold AssignmentsList.after in *. simpl. rewrite IH. simpl.
    rewrite <- app_assoc. reflexivity.
Qed.

Lemma users_after_broadcasts (rs : list UserProfilesList.UserProfile)
    (st : UserProfilesList.State) :
  UserProfilesList.after st (map Broadcast rs)
  = UserProfilesList.mkState (rev rs ++ UserProfilesList.users st)
      (UserProfilesList.loading st) (UserProfilesList.error st).
Proof.
  revert st. induction rs as [|r rest IH]; intros st.
  - destruct st; reflexivity.
  - unfold UserProfilesList.after in *. simpl. rewrite IH. simpl.
    rewrite <- app_assoc. reflexivity.
Qed.

(** X17. A list component shows its loading notice from the start until the
    initial fetch settles, whatever else happens: broadcast events received
    meanwhile are taken into the state but none is displayed. *)
Theorem list_view_loading_until_fetch_settles :
  (forall events : list (Event AssignmentsList.Assignment),
     forallb not_settled events = true ->
     AssignmentsList.render
       (AssignmentsList.after AssignmentsList.initial events) = Loading) /\
  (forall events : list (Event UserProfilesList.UserProfile),
     forallb not_settled events = true ->
     UserProfilesList.render
       (UserProfilesList.after UserProfilesList.initial events) = Loading).
Proof.
  split; intros events H.
  - destruct (assignments_after_keeps events AssignmentsList.initial H)
      as [Hl _].
    unfold AssignmentsList.render. rewrite Hl. reflexivity.
  - destruct (users_after_keeps events UserProfilesList.initial H) as [Hl _].
    unfold UserProfilesList.render. rewrite Hl. reflexivity.
Qed.

(** X18. A successful initial fetch replaces the state: the records
    broadcast before it settled are dropped, and what the component then
    displays is the fetched array with the records broadcast afterwards
    stacked on top, latest first (or the notice that nothing was found when
    both are empty). *)
Theorem list_view_fetch_replaces_earlier_broadcasts :
  (forall (before : list (Event AssignmentsList.Assignment))
          (data later : list AssignmentsList.Assignment),
     forallb not_settled before = true ->
     AssignmentsList.render
       (AssignmentsList.after AssignmentsList.initial
          (before ++ FetchSettled (Response true (inr data))
                  :: map Broadcast later))
     = match rev later ++ data with
       | [] => Empty
       | records => Cards records
       end) /\
  (forall (before : list (Event UserProfilesList.UserProfile))
          (data later : list UserProfilesList.UserProfile),
     forallb not_settled before = true ->
     UserProfilesList.render
       (UserProfilesList.after UserProfilesList.initial
          (before ++ FetchSettled (Response true (inr data))
                  :: map Broadcast later))
     = match rev later ++ data with
       | [] => Empty
       | records => Cards records
       end).
Proof.
  split; intros before data later H.
  - rewrite assignments_after_app.
    destruct (assignments_after_keeps before AssignmentsList.initial H)
      as [_ Herr].
    change (AssignmentsList.after ?s (?e :: ?l))
      with (AssignmentsList.after (fst (AssignmentsList.step s e)) l).
    rewrite assignments_after_broadcasts. simpl.
    unfold AssignmentsList.render. simpl. rewrite Herr. reflexivity.
  - rewrite users_after_app.
    destruct (users_after_keeps before UserProfilesList.initial H)
      as [_ Herr].
    change (UserProfilesList.after ?s (?e :: ?l))
      with (UserProfilesList.after (fst (UserProfilesList.step s e)) l).
    rewrite users_after_broadcasts. simpl.
    unfold UserProfilesList.render. simpl. rewrite Herr. reflexivity.
Qed.

(** X19. A failed initial fetch is final.  When the fetch is rejected, or
    its body cannot be parsed, with a non-empty message, the component shows
    that message; when the response is not [ok] it shows its fixed text
    whatever the body says.  No later broadcast changes the display, and the
    records received are never shown. *)
Theorem list_view_failure_is_final :
  (forall (before later : list (Event AssignmentsList.Assignment))
          (reply : FetchResult (list AssignmentsList.Assignment))
          (message : string),
     forallb not_settled before = true ->
     forallb not_settled later = true ->
     (reply = NetworkError message \/ reply = Response true (inl message))
     /\ String.eqb message "" = false
     \/ (exists j, reply = Response false j)
        /\ message = "Failed to fetch assignments from API."%string ->
     AssignmentsList.render
       (AssignmentsList.after AssignmentsList.initial
          (before ++ FetchSettled reply :: later))
     = Failed message) /\
  (forall (before later : list (Event UserProfilesList.UserProfile))
          (reply : FetchResult (list UserProfilesList.UserProfile))
          (message : string),
     forallb not_settled before = true ->
     forallb not_settled later = true ->
     (reply = NetworkError message \/ reply = Response true (inl message))
     /\ String.eqb message "" = false
     \/ (exists j, reply = Response false j)
        /\ message = "Failed to fetch user profiles from API."%string ->
     UserProfilesList.render
       (UserProfilesList.after UserProfilesList.initial
          (before ++ FetchSettled reply :: later))
     = Failed message).
Proof.
  split; intros before later reply message Hb Hl Hfail.
  - rewrite assignments_after_app.
    change (AssignmentsList.after ?s (?e :: ?l))
      with (AssignmentsList.after (fst (AssignmentsList.step s e)) l).
    destruct (assignments_after_keeps later
                (fst (AssignmentsList.step
                        (AssignmentsList.after AssignmentsList.initial before)
                        (FetchSettled reply))) Hl) as [Hload Herr].
    unfold AssignmentsList.render. rewrite Hload, Herr.
    destruct Hfail as [[[-> | ->] Hm]|[[j ->] ->]]; simpl;
      try rewrite Hm; reflexivity.
  - rewrite users_after_app.
    change (UserProfilesList.after ?s (?e :: ?l))
      with (UserProfilesList.after (fst (UserProfilesList.step s e)) l).
    destruct (users_after_keeps later
                (fst (UserProfilesList.step
                        (UserProfilesList.after UserProfilesList.initial before)
                        (FetchSettled reply))) Hl) as [Hload Herr].
    unfold UserProfilesList.render. rewrite Hload, Herr.
    destruct Hfail as [[[-> | ->] Hm]|[[j ->] ->]]; simpl;
      try rewrite Hm; reflexivity.
Qed.

(* ================================================================== *)
(** ** Worked instances of the further properties *)
(* ================================================================== *)

(** X3 at a payload carrying an [id] and a [created_at] of its own. *)
Lemma create_ignores_other_fields_witness :
  run (create Date_parse_date_only assignmentsCollection Sample.env_ack
         Sample.body_with_id) Sample.w_empty
  = run (create Date_parse_date_only assignmentsCollection Sample.env_ack
           Sample.body_assignment) Sample.w_empty.
Proof.
  apply (create_ignores_other_fields Date_parse_date_only).
  intros k [<-|[<-|[<-|[<-|[]]]]]; reflexivity.
Defined.

(** X5 at a collection holding a document without [due_date]. *)
Lemma list_fails_on_one_bad_document_witness :
  item_of_doc assignmentsCollection Sample.legacy_doc = Throw TypeError /\
  run (list_records assignmentsCollection Sample.env_ack) Sample.w_legacy
  = (Sample.w_legacy,
     [StoreGet assignmentsCollection true; Respond 500 internal_error]).
Proof.
  split; [reflexivity|].
  apply (list_fails_on_one_bad_document assignmentsCollection Sample.env_ack
           Sample.w_legacy Sample.legacy_doc TypeError);
    try reflexivity.
  left. reflexivity.
Defined.

(** X6 over a creation and a listing. *)
Lemma uninitialized_store_fails_every_request_witness :
  serve Date_parse_date_only Sample.w_down
    [(Sample.env_ack, Post assignmentsCollection Sample.body_assignment);
     (Sample.env_ack, Get assignmentsCollection)]
  = (Sample.w_down, [Respond 500 db_error; Respond 500 db_error]).
Proof.
  apply (uninitialized_store_fails_every_request Date_parse_date_only).
  reflexivity.
Defined.

(** X8 at a [due_date] given as an object. *)
Lemma unconvertible_due_date_not_written_witness :
  run (create Date_parse_date_only assignmentsCollection Sample.env_ack
         Sample.body_object_date) Sample.w_empty
  = (Sample.w_empty, [Respond 500 internal_error]).
Proof.
  apply (unconvertible_due_date_not_written Date_parse_date_only
           Sample.env_ack Sample.body_object_date Sample.w_empty
           [("toString"%string, JNull)]);
    reflexivity.
Defined.

(** X9 at the default application id. *)
Lemma collection_path_injective_witness :
  collection_path (appId None) usersCollection
  = "artifacts/default-app-id/public/data/users"%string /\
  appId None = "default-app-id"%string /\ usersCollection = usersCollection.
Proof.
  split; [reflexivity|].
  apply (collection_path_injective (appId None) "default-app-id"
           usersCollection usersCollection).
  reflexivity.
Defined.

(** X11 at the sample forms. *)
Lemma form_in_flight_witness :
  AssignmentForm.render (fst (AssignmentForm.begin_submit
                                Sample.form_after_success))
  = mkFormView None None "Adding..." true /\
  UserProfileForm.render (fst (UserProfileForm.begin_submit
                                 Sample.profile_form))
  = mkFormView None None "Creating..." true.
Proof.
  destruct form_in_flight as [Hassign Huser]. split.
  - apply (Hassign Sample.form_after_success (NetworkError "")). reflexivity.
  - apply (Huser Sample.profile_form (NetworkError "")). reflexivity.
Defined.

(** X13 after a success and after a failure. *)
Lemma resubmission_witness :
  snd (AssignmentForm.handleSubmit
         (fst (AssignmentForm.handleSubmit Sample.form_after_success
                 (Response true (inr JNull))))
         (Response true (inr JNull)))
  = [] /\
  snd (UserProfileForm.handleSubmit
         (fst (UserProfileForm.handleSubmit Sample.profile_form
                 (NetworkError "Failed to fetch")))
         (Response true (inr JNull)))
  = snd (UserProfileForm.handleSubmit Sample.profile_form
           (NetworkError "Failed to fetch")).
Proof.
  destruct resubmission as [Hassign Huser]. split.
  - apply (Hassign Sample.form_after_success (Response true (inr JNull))
             (Response true (inr JNull)) eq_refl).
    eexists. reflexivity.
  - apply (Huser Sample.profile_form (NetworkError "Failed to fetch")
             (Response true (inr JNull)) eq_refl).
    intros j H. discriminate H.
Defined.


(** [parseInt] past 2^53 gives the nearest double, ties to the even
    significand; an id of 310 digits reads as an infinity, is sent as
    [null], and the server refuses the body. *)
Example parseInt10_rounds :
  parseInt10 "9007199254740993" = Finite 9007199254740992 /\
  parseInt10 "9007199254740995" = Finite 9007199254740996 /\
  parseInt10 " -12px" = Finite (-12) /\
  parseInt10 "px" = NaN.
Proof. vm_compute. repeat split. Qed.

Example overlong_id_refused :
  AssignmentForm.filled Sample.form_long_gig = true /\
  parseInt10 (AssignmentForm.gigId Sample.form_long_gig) = Infinity false /\
  field "gig_id" (AssignmentForm.request_fields Sample.form_long_gig)
  = J JNull /\
  required_present assignmentsCollection
    (AssignmentForm.request_fields Sample.form_long_gig) = false.
Proof. vm_compute. repeat split. Qed.

(** X15 at a write the store rejects: the form shows the server's text. *)
Lemma form_against_server_witness :
  fst (AssignmentForm.handleSubmit Sample.form_after_success
         (Response false (inr (error_json "Internal server error."))))
  = AssignmentForm.mkState "12" "3" "2024-02-29" "pending" false None
      (Some "Internal server error."%string).
Proof.
  destruct (form_against_server Date_parse_date_only) as [Hassign _].
  destruct (Hassign Sample.form_after_success Sample.env_reject Sample.w_empty
              500 internal_error
              (Response false (inr (error_json "Internal server error.")))
              eq_refl eq_refl eq_refl)
    as [[H _]|(e & He & _ & Hst)].
  - discriminate H.
  - injection He as <-. exact Hst.
Defined.

(** X16 at the sample profile form. *)
Lemma profile_form_accepted_witness :
  emits (snd (run (create Date_parse_date_only usersCollection Sample.env_ack
                     (UserProfileForm.request_fields Sample.profile_form))
                Sample.w_empty))
  = [("new_user"%string,
      [("id", J (JStr "doc1")); ("username", J (JStr "ana"));
       ("bio", J (JStr ""));
       ("skills", J (JArr [JStr "go"; JStr "rust"; JStr ""]));
       ("created_at", J (JStr "2023-11-14T22:13:20.000Z"))]%string)].
Proof.
  rewrite (profile_form_accepted Date_parse_date_only Sample.profile_form
             Sample.env_ack Sample.w_empty "doc1" eq_refl eq_refl eq_refl).
  reflexivity.
Defined.

(** X17, X18 and X19 on two broadcast assignments. *)
Lemma list_view_loading_until_fetch_settles_witness :
  AssignmentsList.render
    (AssignmentsList.after AssignmentsList.initial
       [Mount; Broadcast Sample.assignment_a])
  = Loading.
Proof.
  destruct list_view_loading_until_fetch_settles as [Hassign _].
  apply (Hassign [Mount; Broadcast Sample.assignment_a]). reflexivity.
Defined.

Lemma list_view_fetch_replaces_earlier_broadcasts_witness :
  AssignmentsList.render
    (AssignmentsList.after AssignmentsList.initial
       ([Mount; Broadcast Sample.assignment_a]
        ++ FetchSettled (Response true (inr []))
        :: map Broadcast [Sample.assignment_b]))
  = Cards [Sample.assignment_b].
Proof.
  destruct list_view_fetch_replaces_earlier_broadcasts as [Hassign _].
  apply (Hassign [Mount; Broadcast Sample.assignment_a] []
           [Sample.assignment_b]).
  reflexivity.
Defined.

Lemma list_view_failure_is_final_witness :
  AssignmentsList.render
    (AssignmentsList.after AssignmentsList.initial
       ([Mount] ++ FetchSettled (Response false (inl "Unexpected token"%string))
        :: [Broadcast Sample.assignment_a]))
  = Failed "Failed to fetch assignments from API.".
Proof.
  destruct list_view_failure_is_final as [Hassign _].
  apply (Hassign [Mount] [Broadcast Sample.assignment_a]); try reflexivity.
  right. split; [eexists; reflexivity|reflexivity].
Defined.

(** X10 over a run of two creations and a listing. *)
Lemma published_records_are_stored_witness :
  exists c doc,
    "new_assignment"%string = topic c /\
    In doc (docs_of c Sample.w_two) /\
    item_of_doc c doc
    = Ok (canonical_record assignmentsCollection "doc2"
            Sample.body_assignment 1709164800000 1700000001000).
Proof.
  apply (published_records_are_stored Date_parse_date_only
           [(Sample.env_ack,
             Post assignmentsCollection Sample.body_assignment);
            (Sample.env_ack2,
             Post assignmentsCollection Sample.body_assignment);
            (Sample.env_ack, Get assignmentsCollection)]
           Sample.w_empty).
  vm_compute. right. left. reflexivity.
Defined.

(** X20 at a body without an [error] entry. *)
Lemma form_error_text_witness :
  AssignmentForm.error
    (fst (AssignmentForm.handleSubmit Sample.form_after_success
            (Response false (inr (JObj [("message"%string, JStr "no")])))))
  = Some "Failed to add assignment."%string.
Proof.
  destruct form_error_text as [Hassign _].
  destruct (Hassign Sample.form_after_success
              (JObj [("message"%string, JStr "no")]) ""%string ""%string
              eq_refl) as (_ & Hfallback & _).
  apply Hfallback; [discriminate|left; reflexivity].
Defined.
